(** * The run gateway: wire contract getters and the [run] HTTP handler

    A shallow embedding of two pieces of the repository:

    - [proto/types.pb.go]: the generated wire messages [HTTPRequest],
      [HeaderFields] and [HTTPResponse] with their nil-safe getters;
    - the command-line front end: the HTTP handler installed by
      [command.handleRunEndpoint], which instantiates the guest module,
      captures its standard output and turns the last complete line
      [body|status] into an HTTP response, run with the response writer
      of the [net/http] server and with the recorder of [httptest];
    - the commands of the front end: [main] with the parsing of its flags
      by the package [flag], the handlers it dispatches to, [makeEnvMap]
      and the flag value [stringList], as computations that print, read
      files, call the API and exit.

    Go strings are byte sequences and are modelled by [string]; Go [int] is
    taken to be 64 bits wide and is modelled by [Z]; a pointer, a slice and
    a map that may be [nil] are modelled by [option].  A run-time panic is
    an explicit outcome of the handler. *)

From Stdlib Require Import ZArith Lia Ascii String List Bool.
From stdpp Require Import base strings gmap.
Import ListNotations.

Local Open Scope string_scope.
Local Open Scope Z_scope.

(** ** Package proto: the generated wire messages *)

Module Proto.

(** [type HeaderFields struct { Fields []string }] *)
Record HeaderFields : Type := mkHeaderFields {
  Fields : option (list string)
}.

(** [type HTTPRequest struct { ... }]; the three bookkeeping fields of the
    protobuf runtime (state, sizeCache, unknownFields) carry no data of the
    message and are left out. *)
Record HTTPRequest : Type := mkHTTPRequest {
  Body : option (list Byte.byte);
  Method : string;
  URL : string;
  EndpointID : string;
  ID : string;
  Header : option (gmap string (option HeaderFields));
  Runtime : string;
  ActiveDeployID : string;
  Env : option (gmap string string)
}.

(** [type HTTPResponse struct { ... }]; [StatusCode] is an [int32]. *)
Record HTTPResponse : Type := mkHTTPResponse {
  Response : option (list Byte.byte);
  StatusCode : Z;
  RequestID : string
}.

(** The receiver [x *T] of a getter is a pointer: [None] is the nil
    pointer. *)

Definition GetBody (x : option HTTPRequest) : option (list Byte.byte) :=
  match x with
  | Some r => Body r
  | None => None
  end.

Definition GetMethod (x : option HTTPRequest) : string :=
  match x with
  | Some r => Method r
  | None => ""
  end.

Definition GetURL (x : option HTTPRequest) : string :=
  match x with
  | Some r => URL r
  | None => ""
  end.

Definition GetEndpointID (x : option HTTPRequest) : string :=
  match x with
  | Some r => EndpointID r
  | None => ""
  end.

Definition GetID (x : option HTTPRequest) : string :=
  match x with
  | Some r => ID r
  | None => ""
  end.

Definition GetHeader (x : option HTTPRequest)
  : option (gmap string (option HeaderFields)) :=
  match x with
  | Some r => Header r
  | None => None
  end.

Definition GetRuntime (x : option HTTPRequest) : string :=
  match x with
  | Some r => Runtime r
  | None => ""
  end.

Definition GetActiveDeployID (x : option HTTPRequest) : string :=
  match x with
  | Some r => ActiveDeployID r
  | None => ""
  end.

Definition GetEnv (x : option HTTPRequest) : option (gmap string string) :=
  match x with
  | Some r => Env r
  | None => None
  end.

Definition GetFields (x : option HeaderFields) : option (list string) :=
  match x with
  | Some r => Fields r
  | None => None
  end.

Definition GetResponse (x : option HTTPResponse) : option (list Byte.byte) :=
  match x with
  | Some r => Response r
  | None => None
  end.

Definition GetStatusCode (x : option HTTPResponse) : Z :=
  match x with
  | Some r => StatusCode r
  | None => 0
  end.

Definition GetRequestID (x : option HTTPResponse) : string :=
  match x with
  | Some r => RequestID r
  | None => ""
  end.

End Proto.

(** ** The Go library functions the handler calls

    These are not code of the repository; they are modelled after the Go
    standard library so that the handler can be evaluated. *)

(** The line feed, Go's ["\n"], and the field separator ["|"]. *)
Definition LF : ascii := "010"%char.
Definition BAR : ascii := "|"%char.

Module Strings.

(** [strings.Split(s, sep)] for a separator of one byte, which is how the
    handler calls it: the pieces of [s] between the occurrences of [sep],
    one more piece than there are separators. *)
Fixpoint Split (s : string) (sep : ascii) : list string :=
  match s with
  | EmptyString => [EmptyString]
  | String c s' =>
      if Ascii.eqb c sep then EmptyString :: Split s' sep
      else match Split s' sep with
           | piece :: pieces => String c piece :: pieces
           | [] => [String c EmptyString]
           end
  end.

(** [strings.IndexByte(s, c) >= 0]. *)
Fixpoint ContainsByte (s : string) (c : ascii) : bool :=
  match s with
  | EmptyString => false
  | String c' s' => Ascii.eqb c' c || ContainsByte s' c
  end.

(** [strings.Cut(s, sep)] for a separator of one byte: the text before the
    first [sep], the text after it, and whether [sep] occurs at all. *)
Fixpoint Cut (s : string) (sep : ascii) : string * string * bool :=
  match s with
  | EmptyString => (EmptyString, EmptyString, false)
  | String c s' =>
      if Ascii.eqb c sep then (EmptyString, s', true)
      else let '(before, after, found) := Cut s' sep in
           (String c before, after, found)
  end.

(** [strings.Join(elems, sep)]. *)
Fixpoint Join (elems : list string) (sep : string) : string :=
  match elems with
  | [] => EmptyString
  | e :: rest =>
      match rest with
      | [] => e
      | _ :: _ => e +:+ sep +:+ Join rest sep
      end
  end.

(** [strings.Count(s, sep)] for a separator of one byte. *)
Fixpoint Count (s : string) (c : ascii) : nat :=
  match s with
  | EmptyString => O
  | String c' s' => ((if Ascii.eqb c' c then 1 else 0) + Count s' c)%nat
  end.

End Strings.

Module Strconv.

Inductive NumError : Type := ErrSyntax | ErrRange.

Definition maxUint64 : Z := 2 ^ 64 - 1.

(** The loop of [strconv.ParseUint(s, 10, 64)]: [n] is the value read so
    far.  A byte that is not a decimal digit is a syntax error; leaving the
    range of [uint64] is a range error with the value [maxUint64]. *)
Fixpoint parseUintLoop (s : string) (n : Z) : Z * option NumError :=
  match s with
  | EmptyString => (n, None)
  | String c s' =>
      let d := (Z.of_N (N_of_ascii c) - 48) mod 256 in
      if 9 <? d then (0, Some ErrSyntax)
      else if maxUint64 / 10 + 1 <=? n then (maxUint64, Some ErrRange)
      else
        let n1 := n * 10 + d in
        if maxUint64 <? n1 then (maxUint64, Some ErrRange)
        else parseUintLoop s' n1
  end.

Definition ParseUint (s : string) : Z * option NumError :=
  match s with
  | EmptyString => (0, Some ErrSyntax)
  | _ => parseUintLoop s 0
  end.

(** [strconv.ParseInt(s, 10, 0)] with a 64-bit [int]. *)
Definition ParseInt (s : string) : Z * option NumError :=
  match s with
  | EmptyString => (0, Some ErrSyntax)
  | String c rest =>
      let neg := Ascii.eqb c "-" in
      let s' := if Ascii.eqb c "+" || neg then rest else s in
      let '(un, err) := ParseUint s' in
      match err with
      | Some ErrSyntax => (0, err)
      | _ =>
          let cutoff := 2 ^ 63 in
          if negb neg && (cutoff <=? un) then (cutoff - 1, Some ErrRange)
          else if neg && (cutoff <? un) then (- cutoff, Some ErrRange)
          else (if neg then - un else un, None)
      end
  end.

(** [strconv.Atoi(s)]: its fast path for short inputs computes what
    [ParseInt] computes, so [Atoi] is [ParseInt] in base 10. *)
Definition Atoi (s : string) : Z * option NumError := ParseInt s.

(** The byte ['0' + d]. *)
Definition digit (d : Z) : ascii := ascii_of_N (Z.to_N (48 + d)).

(** The digits of [u >= 0], most significant first, put before [acc]; the
    loop of [strconv.FormatInt] in base 10. *)
Fixpoint formatBits (fuel : nat) (u : Z) (acc : string) : string :=
  match fuel with
  | O => acc
  | S fuel' =>
      if u <? 10 then String (digit u) acc
      else formatBits fuel' (u / 10) (String (digit (u mod 10)) acc)
  end.

(** [strconv.Itoa(i)]: the base-10 text of a 64-bit integer, which has at
    most 20 digits. *)
Definition Itoa (i : Z) : string :=
  if i <? 0 then String "-" (formatBits 20 (- i) EmptyString)
  else formatBits 20 i EmptyString.

End Strconv.

(** ** Handlers as computations over the response writer

    A handler runs against a response writer [W]; it either returns or
    panics, and in both cases leaves the writer in some state. *)

Inductive panic : Type :=
| IndexOutOfRange (index len : Z)
| InvalidWriteHeaderCode (code : Z).

Inductive outcome (W A : Type) : Type :=
| Returned (a : A) (w : W)
| Panicked (p : panic) (w : W).

Arguments Returned {W A} a w.
Arguments Panicked {W A} p w.

Definition M (W A : Type) : Type := W -> outcome W A.

Definition ret {W A : Type} (a : A) : M W A := fun w => Returned a w.

Definition throw {W A : Type} (p : panic) : M W A := fun w => Panicked p w.

Definition bind {W A B : Type} (m : M W A) (k : A -> M W B) : M W B :=
  fun w =>
    match m w with
    | Returned a w' => k a w'
    | Panicked p w' => Panicked p w'
    end.

Notation "x <- m ;; k" := (bind m (fun x => k))
  (at level 100, m at next level, k at level 200, right associativity).

(** The writer a handler ends with, however it ends. *)
Definition writer {W A : Type} (o : outcome W A) : W :=
  match o with
  | Returned _ w => w
  | Panicked _ w => w
  end.

(** [l[i]] on a slice of strings: a run-time panic outside [0 <= i < len]. *)
Definition index {W : Type} (l : list string) (i : Z) : M W string :=
  if (i <? 0) || (Z.of_nat (length l) <=? i)
  then throw (IndexOutOfRange i (Z.of_nat (length l)))
  else ret (nth (Z.to_nat i) l EmptyString).

(** The interface [http.ResponseWriter], as far as the handler uses it. *)
Class ResponseWriter (W : Type) : Type := {
  WriteHeader : Z -> M W unit;
  Write : string -> M W unit
}.

Module Httptest.

(** [httptest.ResponseRecorder]: the status code and the body a handler
    produced.  As in [net/http], [WriteHeader] panics on a code outside
    100..999, only the first [WriteHeader] counts, and a [Write] before any
    [WriteHeader] sends the status 200.  The recorder keeps every code as
    the status and every byte written, which the server of [Http] does
    not. *)
Record ResponseRecorder : Type := mkRecorder {
  Code : Z;
  Body : string;
  wroteHeader : bool
}.

Definition NewRecorder : ResponseRecorder :=
  {| Code := 200; Body := EmptyString; wroteHeader := false |}.

Definition recWriteHeader (code : Z) : M ResponseRecorder unit :=
  fun rw =>
    if wroteHeader rw then Returned tt rw
    else if (code <? 100) || (999 <? code)
    then Panicked (InvalidWriteHeaderCode code) rw
    else Returned tt {| Code := code; Body := Body rw; wroteHeader := true |}.

Definition recWrite (buf : string) : M ResponseRecorder unit :=
  _ <- recWriteHeader 200 ;;
  (fun rw => Returned tt {| Code := Code rw;
                            Body := Body rw +:+ buf;
                            wroteHeader := wroteHeader rw |}).

#[global] Instance recorder_writer : ResponseWriter ResponseRecorder :=
  {| WriteHeader := recWriteHeader; Write := recWrite |}.

End Httptest.

Module Http.

(** The response writer the handler runs with under [http.ListenAndServe],
    the type [response] of the server in [net/http]: the method of the request
    it answers, the status of the final header, the codes of the
    informational responses already sent, and the bytes of the body. *)
Record response : Type := mkResponse {
  reqMethod : string;
  status : Z;
  wroteHeader : bool;
  informational : list Z;
  written : string
}.

Definition newResponse (method : string) : response :=
  {| reqMethod := method; status := 0; wroteHeader := false;
     informational := []; written := EmptyString |}.

(** [bodyAllowedForStatus]: no body with 1xx, 204 and 304. *)
Definition bodyAllowedForStatus (status : Z) : bool :=
  if (100 <=? status) && (status <=? 199) then false
  else if status =? 204 then false
  else if status =? 304 then false
  else true.

(** [response.WriteHeader]: a later call is ignored; a code outside
    100..999 panics ([checkWriteHeaderCode]); a 1xx code other than 101 is
    sent at once as an informational response and leaves the final header
    open; any other code is the status of the final header. *)
Definition WriteHeader (code : Z) : M response unit :=
  fun w =>
    if wroteHeader w then Returned tt w
    else if (code <? 100) || (999 <? code)
    then Panicked (InvalidWriteHeaderCode code) w
    else if (100 <=? code) && (code <=? 199) && negb (code =? 101)
    then Returned tt {| reqMethod := reqMethod w; status := status w;
                        wroteHeader := false;
                        informational := (informational w ++ [code])%list;
                        written := written w |}
    else Returned tt {| reqMethod := reqMethod w; status := code;
                        wroteHeader := true;
                        informational := informational w;
                        written := written w |}.

(** [response.Write]: without a header yet, [WriteHeader(200)] first;
    then nothing for empty data, nothing when the status allows no body
    ([ErrBodyNotAllowed], which the handler does not look at), nothing when
    the request is a HEAD, and the data after the body otherwise. *)
Definition Write (data : string) : M response unit :=
  _ <- (fun w => if wroteHeader w then Returned tt w else WriteHeader 200 w) ;;
  (fun w =>
     match data with
     | EmptyString => Returned tt w
     | String _ _ =>
         if negb (bodyAllowedForStatus (status w)) then Returned tt w
         else if String.eqb (reqMethod w) "HEAD" then Returned tt w
         else Returned tt {| reqMethod := reqMethod w; status := status w;
                             wroteHeader := wroteHeader w;
                             informational := informational w;
                             written := written w +:+ data |}
     end).

(** [response.finishRequest], which the server runs when the handler
    has returned: a handler that wrote no header has answered 200. *)
Definition finishRequest : M response unit :=
  fun w => if wroteHeader w then Returned tt w else WriteHeader 200 w.

#[global] Instance server_writer : ResponseWriter response :=
  Build_ResponseWriter response WriteHeader Write.

(** The response the server has sent after [WriteHeader(code)] and
    [Write(body)] on a fresh writer, for a code in 100..999. *)
Definition answer (method : string) (code : Z) (body : string) : response :=
  let informs := (100 <=? code) && (code <=? 199) && negb (code =? 101) in
  let final := if informs then 200 else code in
  {| reqMethod := method; status := final; wroteHeader := true;
     informational := if informs then [code] else [];
     written := if bodyAllowedForStatus final
                   && negb (String.eqb method "HEAD")
                then body else EmptyString |}.

End Http.

(** ** Package main: the handler of [run]  *)

Module Main.

(** What [runtime.InstantiateModule] did for one invocation: the bytes the
    guest wrote to the buffer [out], and the message of the returned error,
    if any. *)
Record Instantiation : Type := mkInstantiation {
  out : string;
  err : option string
}.

Section handleRunEndpoint.

Context {W : Type} `{ResponseWriter W}.

(** The sandbox: it is given the arguments of the module configuration,
    [WithArgs("", "-e", string(jsb))]. *)
Variable InstantiateModule : list string -> Instantiation.

(** The contents of the file named on the command line. *)
Variable jsb : string.

(** The function value passed to [http.HandlerFunc]; [path] is
    [r.URL.Path]. *)
Definition handler (path : string) : M W unit :=
  if String.eqb path "/favicon.ico" then ret tt
  else
    let run := InstantiateModule [EmptyString; "-e"; jsb] in
    match err run with
    | Some msg => Write msg
    | None =>
        let lines := Strings.Split (out run) LF in
        last <- index lines (Z.of_nat (length lines) - 2) ;;
        let parts := Strings.Split last BAR in
        field <- index parts 1 ;;
        let '(status, _) := Strconv.Atoi field in
        _ <- WriteHeader status ;;
        body <- index parts 0 ;;
        Write body
    end.

End handleRunEndpoint.

(** One request served against a fresh recorder. *)
Definition serve (InstantiateModule : list string -> Instantiation)
    (jsb path : string) : outcome Httptest.ResponseRecorder unit :=
  handler InstantiateModule jsb path Httptest.NewRecorder.

(** A guest that exits normally after writing [o] to its standard output,
    and a guest whose instantiation fails with the message [msg] after
    writing [o]. *)
Definition exits (o : string) : list string -> Instantiation :=
  fun _ => {| out := o; err := None |}.


End Main.

(** ** Package main: the commands of the command-line front end

    A command runs in the process: it writes to the standard output, reads
    files and calls the API through the client, and it ends by returning,
    by [os.Exit] or by a run-time panic.  What it did is kept as a trace of
    events, oldest first.  The packages the commands call (config, uuid,
    os, client, json, wazero) are not code of this file: they are taken as
    the ports of the process. *)

Module Command.

Definition EQUALS : ascii := "="%char.
Definition COLON : ascii := ":"%char.

(** [type stringList []string] with its two methods, which make it a
    [flag.Value]: [Set] returns the new slice and the error, which is
    always nil. *)
Definition stringList : Type := list string.

Definition Set_ (l : stringList) (value : string) : stringList * option string :=
  ((l ++ [value])%list, None).

Definition String_ (l : stringList) : string :=
  Strings.Join l (String COLON EmptyString).

Section externals.

(** The values of [uuid.UUID], of the responses of the client and of
    [wazero.CompiledModule]. *)
Context {UUID Object CompiledModule : Type}.

Inductive event : Type :=
| Stdout (text : string)
| Stderr (text : string)
| UsageText
| ReadFile (name : string)
| RollbackEndpoint (endpointID deployID : UUID)
| ListEndpoints
| CreateEndpoint (runtime name : string) (environment : gmap string string)
| CreateDeploy (endpointID : UUID) (artifact : string)
| CompileModule (wasm : string)
| ListenAndServe (addr : string) (compiled : CompiledModule) (jsb : string).

(** What the called packages answer; [inl msg] is a non-nil error with the
    text [msg]. *)
Record Ports : Type := mkPorts {
  config_Parse : string -> option string;
  config_GetWasmUrl : string;
  types_ValidRuntime : string -> bool;
  uuid_Parse : string -> string + UUID;
  os_ReadFile : string -> string + string;
  client_RollbackEndpoint : UUID -> UUID -> string + Object;
  client_ListEndpoints : string + Object;
  client_CreateEndpoint :
    string -> string -> gmap string string -> string + Object;
  client_CreateDeploy : UUID -> string -> string + Object;
  deploy_EndpointID : Object -> string;
  json_MarshalIndent : Object -> string + string;
  runtime_CompileModule : string -> string + CompiledModule;
  wasi_MustInstantiate : option string
}.

Inductive fault : Type :=
| OutOfRange (index len : Z)
| SliceBounds (low len : Z)
| MustInstantiateFailed (msg : string).

Inductive run (A : Type) : Type :=
| Done (a : A) (t : list event)
| Exited (code : Z) (t : list event)
| Faulted (f : fault) (t : list event).

Arguments Done {A} a t.
Arguments Exited {A} code t.
Arguments Faulted {A} f t.

Definition Cmd (A : Type) : Type := list event -> run A.

Definition cret {A : Type} (a : A) : Cmd A := fun t => Done a t.

Definition cbind {A B : Type} (m : Cmd A) (k : A -> Cmd B) : Cmd B :=
  fun t =>
    match m t with
    | Done a t' => k a t'
    | Exited code t' => Exited code t'
    | Faulted f t' => Faulted f t'
    end.

Notation "x <-- m ;; k" := (cbind m (fun x => k))
  (at level 100, m at next level, k at level 200, right associativity).

Definition record (e : event) : Cmd unit := fun t => Done tt (t ++ [e])%list.

Definition os_Exit {A : Type} (code : Z) : Cmd A := fun t => Exited code t.

Definition raise {A : Type} (f : fault) : Cmd A := fun t => Faulted f t.

(** [fmt.Println(s)]. *)
Definition Println (s : string) : Cmd unit :=
  record (Stdout (s +:+ String LF EmptyString)).

(** [args[i]] and [args[low:]]. *)
Definition at_ (args : list string) (i : Z) : Cmd string :=
  if (i <? 0) || (Z.of_nat (length args) <=? i)
  then raise (OutOfRange i (Z.of_nat (length args)))
  else cret (nth (Z.to_nat i) args EmptyString).

Definition from_ (args : list string) (low : Z) : Cmd (list string) :=
  if (low <? 0) || (Z.of_nat (length args) <? low)
  then raise (SliceBounds low (Z.of_nat (length args)))
  else cret (skipn (Z.to_nat low) args).

Definition printUsage {A : Type} : Cmd A :=
  _ <-- record UsageText ;;
  os_Exit 0.

Definition printErrorAndExit {A : Type} (err : string) : Cmd A :=
  _ <-- Println EmptyString ;;
  _ <-- Println "Error:" ;;
  _ <-- Println err ;;
  _ <-- Println EmptyString ;;
  os_Exit 1.

(** [if cond { printUsage() }]. *)
Definition usageIf (cond : bool) : Cmd unit :=
  if cond then printUsage else cret tt.

(** [v, err := call; if err != nil { printErrorAndExit(err) }]. *)
Definition orExit {A : Type} (r : string + A) : Cmd A :=
  match r with
  | inl err => printErrorAndExit err
  | inr v => cret v
  end.

Definition envFormatError : string :=
  "env arguments need to be in the format of --env foo=bar --env name=bob".

(** The loop of [makeEnvMap]; [m] is the map built so far. *)
Fixpoint makeEnvMapFrom (list : list string) (m : gmap string string)
  : Cmd (gmap string string) :=
  match list with
  | [] => cret m
  | value :: rest =>
      let parts := Strings.Split value EQUALS in
      _ <-- (if negb (Nat.eqb (length parts) 2)
             then printErrorAndExit envFormatError else cret tt) ;;
      key <-- at_ parts 0 ;;
      val <-- at_ parts 1 ;;
      makeEnvMapFrom rest (<[key := val]> m)
  end.

Definition makeEnvMap (list : list string) : Cmd (gmap string string) :=
  makeEnvMapFrom list ∅.

(** The package-level variables the flags are parsed into. *)
Record Flags : Type := mkFlags {
  env : stringList;
  endpointID : string;
  configFile : string;
  runtime : string
}.

(** The variables before [flagset.Parse]: the defaults given to
    [StringVar], and the empty [env]. *)
Definition defaultFlags : Flags :=
  {| env := []; endpointID := EmptyString; configFile := "config.toml";
     runtime := EmptyString |}.

(** [flagset.failf]: the message on the standard error, then
    [flagset.Usage], which [main] has set to [printUsage]. *)
Definition failf {A : Type} (msg : string) : Cmd A :=
  _ <-- record (Stderr (msg +:+ String LF EmptyString)) ;;
  printUsage.

(** The four flags [main] defines. *)
Definition defined (name : string) : bool :=
  String.eqb name "endpoint" || String.eqb name "config"
  || String.eqb name "runtime" || String.eqb name "env".

(** [flag.Value.Set(value)] for the flag [name]: [StringVar] stores the
    value, [env] is a [stringList].  Neither [Set] returns an error. *)
Definition setFlag (name value : string) (flags : Flags) : Flags :=
  if String.eqb name "endpoint"
  then {| env := env flags; endpointID := value;
          configFile := configFile flags; runtime := runtime flags |}
  else if String.eqb name "config"
  then {| env := env flags; endpointID := endpointID flags;
          configFile := value; runtime := runtime flags |}
  else if String.eqb name "runtime"
  then {| env := env flags; endpointID := endpointID flags;
          configFile := configFile flags; runtime := value |}
  else {| env := fst (Set_ (env flags) value);
          endpointID := endpointID flags;
          configFile := configFile flags; runtime := runtime flags |}.

(** The loop of [parseOne] that looks for [=] from the second byte of the
    name on: the name before it and the value after it. *)
Definition nameAndValue (name : string) : string * option string :=
  match name with
  | EmptyString => (EmptyString, None)
  | String c rest =>
      let '(before, after, found) := Strings.Cut rest EQUALS in
      if found then (String c before, Some after) else (name, None)
  end.

(** [flagset.Parse(arguments)] of the package flag with
    [flag.ExitOnError], as [parseOne] goes through the arguments: it
    returns the variables and [flagset.Args()], or ends in [printUsage]. *)
Fixpoint Parse (flags : Flags) (arguments : list string)
  : Cmd (Flags * list string) :=
  match arguments with
  | [] => cret (flags, [])
  | s :: rest =>
      match s with
      | String c0 (String c1 s2) =>
          if negb (Ascii.eqb c0 "-") then cret (flags, arguments)
          else if Ascii.eqb c1 "-"
                  && match s2 with EmptyString => true | _ => false end
          then cret (flags, rest)
          else
            let name := if Ascii.eqb c1 "-" then s2 else String c1 s2 in
            match name with
            | EmptyString => failf ("bad flag syntax: " +:+ s)
            | String n0 _ =>
                if Ascii.eqb n0 "-" || Ascii.eqb n0 "="
                then failf ("bad flag syntax: " +:+ s)
                else
                  let '(name, value) := nameAndValue name in
                  if negb (defined name)
                  then if String.eqb name "help" || String.eqb name "h"
                       then printUsage
                       else failf ("flag provided but not defined: -"
                                   +:+ name)
                  else
                    match value with
                    | Some v => Parse (setFlag name v flags) rest
                    | None =>
                        match rest with
                        | v :: rest' => Parse (setFlag name v flags) rest'
                        | [] => failf ("flag needs an argument: -" +:+ name)
                        end
                    end
            end
      | _ => cret (flags, arguments)
      end
  end.

Variable p : Ports.
Variable flags : Flags.

(** [v, err := json.MarshalIndent(v, "", "    ")], the error checked, and
    [fmt.Println(string(b))]. *)
Definition printIndented (v : Object) : Cmd unit :=
  b <-- orExit (json_MarshalIndent p v) ;;
  Println b.

Definition handleRollback (args : list string) : Cmd unit :=
  _ <-- usageIf (negb (Nat.eqb (length args) 4)) ;;
  a2 <-- at_ args 2 ;;
  endpointID <-- orExit (uuid_Parse p a2) ;;
  a3 <-- at_ args 3 ;;
  deployID <-- orExit (uuid_Parse p a3) ;;
  _ <-- record (RollbackEndpoint endpointID deployID) ;;
  resp <-- orExit (client_RollbackEndpoint p endpointID deployID) ;;
  printIndented resp.

Definition handleListEndpoints (args : list string) : Cmd unit :=
  _ <-- record ListEndpoints ;;
  endpoints <-- orExit (client_ListEndpoints p) ;;
  printIndented endpoints.

Definition handleCreateEndpoint (args : list string) : Cmd unit :=
  _ <-- usageIf (negb (Nat.eqb (length args) 3)) ;;
  _ <-- usageIf (negb (types_ValidRuntime p (runtime flags))) ;;
  name <-- at_ args 2 ;;
  environment <-- makeEnvMap (env flags) ;;
  _ <-- record (CreateEndpoint (runtime flags) name environment) ;;
  endpoint <-- orExit (client_CreateEndpoint p (runtime flags) name environment) ;;
  printIndented endpoint.

Definition handleDeploy (args : list string) : Cmd unit :=
  _ <-- usageIf (negb (Nat.eqb (length args) 2)) ;;
  a0 <-- at_ args 0 ;;
  id <-- match uuid_Parse p a0 with
         | inl _ => printErrorAndExit ("invalid endpoint id given: " +:+ a0)
         | inr id => cret id
         end ;;
  a1 <-- at_ args 1 ;;
  _ <-- record (ReadFile a1) ;;
  b <-- orExit (os_ReadFile p a1) ;;
  _ <-- record (CreateDeploy id b) ;;
  deploy <-- orExit (client_CreateDeploy p id b) ;;
  _ <-- printIndented deploy ;;
  _ <-- Println EmptyString ;;
  record (Stdout ("deploy is live on: " +:+ config_GetWasmUrl p +:+ "/"
                  +:+ deploy_EndpointID p deploy +:+ String LF EmptyString)).

(** [handleRunEndpoint] up to the call of [http.ListenAndServe], whose
    handler is [Main.handler] for the compiled module and [jsb]. *)
Definition handleRunEndpoint (args : list string) : Cmd unit :=
  _ <-- record (ReadFile "js.wasm") ;;
  b <-- orExit (os_ReadFile p "js.wasm") ;;
  a0 <-- at_ args 0 ;;
  _ <-- record (ReadFile a0) ;;
  jsb <-- orExit (os_ReadFile p a0) ;;
  _ <-- record (CompileModule b) ;;
  compiled <-- orExit (runtime_CompileModule p b) ;;
  _ <-- match wasi_MustInstantiate p with
        | Some msg => raise (MustInstantiateFailed msg)
        | None => cret tt
        end ;;
  record (ListenAndServe ":3000" compiled jsb).

(** [main] after [flagset.Parse]: [flags] holds the parsed flags and [args]
    is [flagset.Args()]. *)
Definition main (args : list string) : Cmd unit :=
  _ <-- match config_Parse p (configFile flags) with
        | Some err => printErrorAndExit err
        | None => cret tt
        end ;;
  _ <-- usageIf (Nat.eqb (length args) 0) ;;
  a0 <-- at_ args 0 ;;
  if String.eqb a0 "endpoint" then
    _ <-- usageIf (Nat.ltb (length args) 2) ;;
    a1 <-- at_ args 1 ;;
    if String.eqb a1 "rollback" then handleRollback args
    else if String.eqb a1 "create" then handleCreateEndpoint args
    else if String.eqb a1 "list" then handleListEndpoints args
    else printUsage
  else if String.eqb a0 "deploy" then
    _ <-- usageIf (Nat.ltb (length args) 2) ;;
    rest <-- from_ args 1 ;;
    handleDeploy rest
  else if String.eqb a0 "run" then
    _ <-- usageIf (Nat.ltb (length args) 2) ;;
    rest <-- from_ args 1 ;;
    handleRunEndpoint rest
  else if String.eqb a0 "help" then printUsage
  else printUsage.

End externals.

Arguments event : clear implicits.
Arguments Ports : clear implicits.
Arguments Cmd : clear implicits.
Arguments run : clear implicits.
Arguments Done {UUID CompiledModule A} a t.
Arguments Exited {UUID CompiledModule A} code t.
Arguments Faulted {UUID CompiledModule A} f t.

(** [main] in full: [flagset.Parse(os.Args[1:])] into the variables, then
    the rest of [main]; [osArgs] is [os.Args[1:]]. *)
Definition mainFromArgs {UUID Object CompiledModule : Type}
    (p : Ports UUID Object CompiledModule) (osArgs : list string)
  : Cmd UUID CompiledModule unit :=
  cbind (Parse defaultFlags osArgs)
    (fun parsed => main p (fst parsed) (snd parsed)).

(** The exit status of the process: 0 when [main] returns, the code given
    to [os.Exit], and 2 when the Go runtime ends it after a panic. *)
Definition exitStatus {UUID CompiledModule A : Type}
    (r : run UUID CompiledModule A) : Z :=
  match r with
  | Done _ _ => 0
  | Exited code _ => code
  | Faulted _ _ => 2
  end.

(** What the process did, however the command ended. *)
Definition traceOf {UUID CompiledModule A : Type}
    (r : run UUID CompiledModule A) : list (event UUID CompiledModule) :=
  match r with
  | Done _ t => t
  | Exited _ t => t
  | Faulted _ t => t
  end.

(** The four lines [printErrorAndExit] writes. *)
Definition errorLines {UUID CompiledModule : Type} (err : string)
  : list (event UUID CompiledModule) :=
  [Stdout (String LF EmptyString);
   Stdout ("Error:" +:+ String LF EmptyString);
   Stdout (err +:+ String LF EmptyString);
   Stdout (String LF EmptyString)].

(** The event is a call of the API through the client. *)
Definition apiCall {UUID CompiledModule : Type}
    (e : event UUID CompiledModule) : bool :=
  match e with
  | RollbackEndpoint _ _ | ListEndpoints | CreateEndpoint _ _ _
  | CreateDeploy _ _ => true
  | _ => false
  end.

(** The list [env] after [flagset.Parse] met the given [--env] values in
    this order: the flag package calls [Set] once for each. *)
Definition parsedEnv (values : list string) : stringList :=
  fold_left (fun l value => fst (Set_ l value)) values [].


(** What must hold of [args] and of the answers of the ports when the
    event is a call of the API. *)
Definition validated {UUID Object CompiledModule : Type}
    (p : Ports UUID Object CompiledModule) (flags : Flags)
    (args : list string) (e : event UUID CompiledModule) : Prop :=
  match e with
  | RollbackEndpoint ue ud =>
      exists a b, args = ["endpoint"; "rollback"; a; b]
                  /\ uuid_Parse p a = inr ue /\ uuid_Parse p b = inr ud
  | ListEndpoints => exists rest, args = "endpoint" :: "list" :: rest
  | CreateEndpoint r name m =>
      args = ["endpoint"; "create"; name]
      /\ r = runtime flags
      /\ types_ValidRuntime p r = true
      /\ makeEnvMap (UUID := UUID) (CompiledModule := CompiledModule)
           (env flags) [] = Done m []
  | CreateDeploy id b =>
      exists a f, args = ["deploy"; a; f]
                  /\ uuid_Parse p a = inr id /\ os_ReadFile p f = inr b
  | _ => True
  end.

(** Ports to run the commands on examples: the configuration file fails
    to parse with [configError], if given; the files named in [missing] do
    not exist; an identifier is a valid UUID unless it is [not-a-uuid]; the
    API and the compiler always succeed. *)
Definition examplePorts (configError wasiError : option string)
    (missing : list string) : Ports string string string :=
  {| config_Parse := fun _ => configError;
     config_GetWasmUrl := "http://localhost:5000";
     types_ValidRuntime := fun r => String.eqb r "go" || String.eqb r "js";
     uuid_Parse := fun s =>
       if String.eqb s "not-a-uuid" then inl "invalid UUID length: 10"
       else inr s;
     os_ReadFile := fun name =>
       if existsb (String.eqb name) missing
       then inl ("open " +:+ name +:+ ": no such file or directory")
       else inr ("contents of " +:+ name);
     client_RollbackEndpoint := fun _ _ => inr "rollback";
     client_ListEndpoints := inr "endpoints";
     client_CreateEndpoint := fun _ _ _ => inr "endpoint";
     client_CreateDeploy := fun _ _ => inr "deploy";
     deploy_EndpointID := fun _ => "e1";
     json_MarshalIndent := fun o => inr ("{" +:+ o +:+ "}");
     runtime_CompileModule := fun wasm => inr ("compiled " +:+ wasm);
     wasi_MustInstantiate := wasiError |}.

Definition exampleFlags (values : list string) : Flags :=
  {| env := parsedEnv values; endpointID := EmptyString;
     configFile := "config.toml"; runtime := "go" |}.

(** The text of an [--env] argument for a key and a value. *)
Definition envEntry (kv : string * string) : string :=
  fst kv +:+ String EQUALS (snd kv).

End Command.

(** ** Vocabulary of the statements *)

(** The captured output before the trailer consists of whole lines: it is
    empty or ends with a line feed. *)
Fixpoint HasSuffixByte (s : string) (c : ascii) : bool :=
  match s with
  | EmptyString => false
  | String c' EmptyString => Ascii.eqb c' c
  | String _ s' => HasSuffixByte s' c
  end.

Definition whole_lines (logs : string) : bool :=
  match logs with
  | EmptyString => true
  | _ => HasSuffixByte logs LF
  end.

(** A line followed by its terminator. *)
Definition line (s : string) : string := s +:+ String LF EmptyString.

(** The arguments the handler configures the guest with. *)
Definition guestArgs (jsb : string) : list string := [EmptyString; "-e"; jsb].

(** The response a fresh recorder holds after [WriteHeader(status)] and
    [Write(body)], the two calls the handler ends with. *)
Definition emit (status : Z) (body : string)
  : outcome Httptest.ResponseRecorder unit :=
  (_ <- WriteHeader status ;; Write body) Httptest.NewRecorder.

(** What the handler does with the trailer candidate [last], run against a
    fresh recorder: its statements from [parts := strings.Split(last, "|")]
    to the end.  [serve_lines] proves that the handler does exactly this
    with the line it selects. *)
Definition respond (last : string) : outcome Httptest.ResponseRecorder unit :=
  (let parts := Strings.Split last BAR in
   field <- index parts 1 ;;
   let '(status, _) := Strconv.Atoi field in
   _ <- WriteHeader status ;;
   body <- index parts 0 ;;
   Write body) Httptest.NewRecorder.

(** The response with status [status] and body [body], fully written. *)
Definition response (status : Z) (body : string) : Httptest.ResponseRecorder :=
  {| Httptest.Code := status; Httptest.Body := body;
     Httptest.wroteHeader := true |}.

(** The decoding rule in the words of the specification: the trailer is cut
    at its first separator into the body and the status field, which is
    all of the remainder. *)
Definition specBody (trailer : string) : string :=
  let '(before, _, _) := Strings.Cut trailer BAR in before.

Definition specStatusField (trailer : string) : string :=
  let '(_, after, _) := Strings.Cut trailer BAR in after.

(** What the handler takes as the status field: [parts[1]]. *)
Definition statusField (trailer : string) : string :=
  nth 1 (Strings.Split trailer BAR) EmptyString.

(** The values [strconv.Atoi] returns together with an error. *)
Definition atoiFallback (v : Z) : bool :=
  (v =? 0) || (v =? 2 ^ 63 - 1) || (v =? - 2 ^ 63).

(** The text starts with a decimal digit. *)
Definition starts_with_digit (s : string) : Prop :=
  exists d t, 0 <= d <= 9 /\ s = String (Strconv.digit d) t.

(** The byte is one of ['0'] to ['9']. *)
Definition isDigit (c : ascii) : bool :=
  (48 <=? Z.of_N (N_of_ascii c)) && (Z.of_N (N_of_ascii c) <=? 57).

(** The carriage return, Go's ["\r"]. *)
Definition CR : ascii := "013"%char.

(** One request with the method [method] served by the server of
    [net/http]: the handler on a fresh response writer, then
    [finishRequest]. *)
Definition serveHTTP (InstantiateModule : list string -> Main.Instantiation)
    (jsb method path : string) : outcome Http.response unit :=
  (_ <- Main.handler InstantiateModule jsb path ;; Http.finishRequest)
    (Http.newResponse method).

(** What the handler does with the trailer candidate [last] on any
    response writer: its statements from
    [parts := strings.Split(last, "|")] to the end. *)
Definition respondTo {W : Type} `{ResponseWriter W} (last : string)
  : M W unit :=
  let parts := Strings.Split last BAR in
  field <- index parts 1 ;;
  let '(status, _) := Strconv.Atoi field in
  _ <- WriteHeader status ;;
  body <- index parts 0 ;;
  Write body.

(** * Facts about the library functions *)

Section SplitFacts.

Variable sep : ascii.

Lemma Split_not_nil (s : string) : Strings.Split s sep <> [].
Proof.
  destruct s as [|c s]; simpl; [discriminate|].
  destruct (Ascii.eqb c sep); [discriminate|].
  destruct (Strings.Split s sep); discriminate.
Qed.

Lemma Split_length_pos (s : string) :
  (1 <= length (Strings.Split s sep))%nat.
Proof.
  pose proof (Split_not_nil s) as Hne.
  destruct (Strings.Split s sep); [congruence | simpl; lia].
Qed.

Lemma ContainsByte_app (a b : string) :
  Strings.ContainsByte (a +:+ b) sep
  = Strings.ContainsByte a sep || Strings.ContainsByte b sep.
Proof.
  induction a as [|c a IH]; simpl; [reflexivity|].
  rewrite IH. apply orb_assoc.
Qed.

Lemma Split_no_sep (s : string) :
  Strings.ContainsByte s sep = false -> Strings.Split s sep = [s].
Proof.
  induction s as [|c s IH]; simpl; [reflexivity|].
  intros Hc. apply orb_false_iff in Hc as [Hc Hs].
  rewrite Hc, (IH Hs). reflexivity.
Qed.

Lemma Split_app (a b : string) :
  Strings.Split (a +:+ String sep b) sep
  = (Strings.Split a sep ++ Strings.Split b sep)%list.
Proof.
  induction a as [|c a IH]; simpl.
  - rewrite Ascii.eqb_refl. reflexivity.
  - destruct (Ascii.eqb c sep); [rewrite IH; reflexivity|].
    rewrite IH. pose proof (Split_not_nil a) as Hne.
    destruct (Strings.Split a sep); [congruence | reflexivity].
Qed.

Lemma Split_pieces (s x : string) :
  In x (Strings.Split s sep) -> Strings.ContainsByte x sep = false.
Proof.
  revert x. induction s as [|c s IH]; simpl; intros x Hx.
  - destruct Hx as [<-|[]]. reflexivity.
  - destruct (Ascii.eqb c sep) eqn:Hc.
    + destruct Hx as [<-|Hx]; [reflexivity | auto].
    + pose proof (Split_not_nil s) as Hne.
      destruct (Strings.Split s sep) as [|p ps]; [congruence|].
      destruct Hx as [<-|Hx].
      * simpl. rewrite Hc. apply IH. left. reflexivity.
      * apply IH. right. exact Hx.
Qed.

Lemma Cut_found (s : string) :
  Strings.ContainsByte s sep = true ->
  exists before after,
    Strings.Cut s sep = (before, after, true)
    /\ s = before +:+ String sep after
    /\ Strings.ContainsByte before sep = false.
Proof.
  induction s as [|c s IH]; simpl; [discriminate|].
  destruct (Ascii.eqb c sep) eqn:Hc; intros Hs.
  - apply Ascii.eqb_eq in Hc as ->.
    exists EmptyString, s. auto.
  - destruct (IH Hs) as (b & a & -> & -> & Hb).
    exists (String c b), a. simpl. rewrite Hc. auto.
Qed.

End SplitFacts.

Lemma whole_lines_inv (logs : string) :
  whole_lines logs = true ->
  logs = EmptyString \/ exists l, logs = line l.
Proof.
  destruct logs as [|c s]; [auto|]. simpl whole_lines. intros Hs. right.
  revert c Hs. induction s as [|c' s IH]; intros c Hs.
  - simpl in Hs. apply Ascii.eqb_eq in Hs as ->. exists EmptyString. reflexivity.
  - destruct (IH c') as [l Hl].
    + exact Hs.
    + exists (String c l). unfold line in *. simpl. rewrite Hl. reflexivity.
Qed.

Section StrconvFacts.

Import Strconv.

Lemma digit_cases (d : Z) :
  0 <= d <= 9 ->
  d = 0 \/ d = 1 \/ d = 2 \/ d = 3 \/ d = 4 \/
  d = 5 \/ d = 6 \/ d = 7 \/ d = 8 \/ d = 9.
Proof. lia. Qed.

Lemma digit_value (d : Z) :
  0 <= d <= 9 -> (Z.of_N (N_of_ascii (digit d)) - 48) mod 256 = d.
Proof.
  intros Hd. destruct (digit_cases d Hd) as [->|[->|[->|[->|[->|[->|[->|[->|[->| ->]]]]]]]]];
    reflexivity.
Qed.

Lemma digit_not_sign (d : Z) :
  0 <= d <= 9 ->
  Ascii.eqb (digit d) "-" = false /\ Ascii.eqb (digit d) "+" = false.
Proof.
  intros Hd. destruct (digit_cases d Hd) as [->|[->|[->|[->|[->|[->|[->|[->|[->| ->]]]]]]]]];
    split; reflexivity.
Qed.

Lemma digit_not_separator (d : Z) :
  0 <= d <= 9 ->
  Ascii.eqb (digit d) BAR = false /\ Ascii.eqb (digit d) LF = false.
Proof.
  intros Hd. destruct (digit_cases d Hd) as [->|[->|[->|[->|[->|[->|[->|[->|[->| ->]]]]]]]]];
    split; reflexivity.
Qed.

Lemma parseUintLoop_digit (d n : Z) (s : string) :
  0 <= d <= 9 -> 0 <= n -> n * 10 + d <= Strconv.maxUint64 ->
  Strconv.parseUintLoop (String (digit d) s) n
  = Strconv.parseUintLoop s (n * 10 + d).
Proof.
  intros Hd Hn Hmax.
  change (Strconv.parseUintLoop (String (digit d) s) n) with
    (let d' := (Z.of_N (N_of_ascii (digit d)) - 48) mod 256 in
     if 9 <? d' then (0, Some Strconv.ErrSyntax)
     else if Strconv.maxUint64 / 10 + 1 <=? n
          then (Strconv.maxUint64, Some Strconv.ErrRange)
          else if Strconv.maxUint64 <? n * 10 + d'
               then (Strconv.maxUint64, Some Strconv.ErrRange)
               else Strconv.parseUintLoop s (n * 10 + d')).
  cbv zeta. rewrite (digit_value d Hd).
  assert (Hcut : Strconv.maxUint64 / 10 + 1 = 1844674407370955162) by reflexivity.
  assert (Hval : Strconv.maxUint64 = 18446744073709551615) by reflexivity.
  rewrite Hcut. rewrite Hval in *.
  destruct (Z.ltb_spec 9 d); [lia|].
  destruct (Z.leb_spec 1844674407370955162 n); [lia|].
  destruct (Z.ltb_spec 18446744073709551615 (n * 10 + d)); [lia|].
  reflexivity.
Qed.

Lemma parse_formatBits (fuel : nat) :
  forall (u : Z) (rest : string),
    0 <= u < 10 ^ Z.of_nat fuel -> u <= Strconv.maxUint64 ->
    Strconv.parseUintLoop (Strconv.formatBits fuel u rest) 0
    = Strconv.parseUintLoop rest u.
Proof.
  induction fuel as [|fuel IH]; intros u rest Hu Hmax.
  - simpl in *. assert (u = 0) as -> by lia. reflexivity.
  - cbn [Strconv.formatBits].
    assert (Hpow : 10 ^ Z.of_nat (S fuel) = 10 * 10 ^ Z.of_nat fuel).
    { rewrite Nat2Z.inj_succ, Z.pow_succ_r by lia. reflexivity. }
    assert (Hval : Strconv.maxUint64 = 18446744073709551615) by reflexivity.
    pose proof (Z.div_mod u 10 ltac:(lia)) as Hdm.
    pose proof (Z.mod_pos_bound u 10 ltac:(lia)) as Hm.
    destruct (Z.ltb_spec u 10) as [Hlt|Hge].
    + rewrite parseUintLoop_digit by lia. f_equal.
    + rewrite IH by lia.
      rewrite parseUintLoop_digit by lia.
      f_equal. lia.
Qed.

Lemma formatBits_keeps_head (fuel : nat) :
  forall (u : Z) (acc : string),
    0 <= u -> starts_with_digit acc ->
    starts_with_digit (Strconv.formatBits fuel u acc).
Proof.
  induction fuel as [|fuel IH]; intros u acc Hu Hacc; [exact Hacc|].
  cbn [Strconv.formatBits].
  pose proof (Z.mod_pos_bound u 10 ltac:(lia)) as Hm.
  destruct (Z.ltb_spec u 10).
  - exists u, acc. split; [lia | reflexivity].
  - apply IH; [apply Z.div_pos; lia|].
    exists (u mod 10), acc. split; [lia | reflexivity].
Qed.

Lemma formatBits_head (fuel : nat) (u : Z) (acc : string) :
  0 <= u -> starts_with_digit (Strconv.formatBits (S fuel) u acc).
Proof.
  intros Hu. cbn [Strconv.formatBits].
  pose proof (Z.mod_pos_bound u 10 ltac:(lia)) as Hm.
  destruct (Z.ltb_spec u 10).
  - exists u, acc. split; [lia | reflexivity].
  - apply formatBits_keeps_head; [apply Z.div_pos; lia|].
    exists (u mod 10), acc. split; [lia | reflexivity].
Qed.

Lemma formatBits_no_separator (fuel : nat) :
  forall (u : Z) (acc : string) (c : ascii),
    0 <= u -> c = BAR \/ c = LF ->
    Strings.ContainsByte (Strconv.formatBits fuel u acc) c
    = Strings.ContainsByte acc c.
Proof.
  induction fuel as [|fuel IH]; intros u acc c Hu Hc; [reflexivity|].
  cbn [Strconv.formatBits].
  pose proof (Z.mod_pos_bound u 10 ltac:(lia)) as Hm.
  destruct (Z.ltb_spec u 10).
  - cbn [Strings.ContainsByte].
    destruct (digit_not_separator u ltac:(lia)) as [Hb Hl].
    destruct Hc as [-> | ->]; [rewrite Hb | rewrite Hl]; reflexivity.
  - rewrite IH by (auto; apply Z.div_pos; lia).
    cbn [Strings.ContainsByte].
    destruct (digit_not_separator (u mod 10) ltac:(lia)) as [Hb Hl].
    destruct Hc as [-> | ->]; [rewrite Hb | rewrite Hl]; reflexivity.
Qed.

End StrconvFacts.

Section AtoiFacts.

Import Strconv.

Lemma formatBits_not_empty (fuel : nat) (u : Z) (acc : string) :
  0 <= u -> formatBits (S fuel) u acc <> EmptyString.
Proof.
  intros Hu. destruct (formatBits_head fuel u acc Hu) as (d & t & _ & ->).
  discriminate.
Qed.

Lemma ParseUint_formatBits (u : Z) :
  0 <= u <= 2 ^ 63 -> ParseUint (formatBits 20 u EmptyString) = (u, None).
Proof.
  intros Hu. unfold ParseUint.
  pose proof (formatBits_not_empty 19 u EmptyString ltac:(lia)) as Hne.
  destruct (formatBits 20 u EmptyString) eqn:Hf; [congruence|].
  rewrite <- Hf. rewrite parse_formatBits; [reflexivity| |].
  - change (10 ^ Z.of_nat 20) with 100000000000000000000.
    change (2 ^ 63) with 9223372036854775808 in Hu. lia.
  - change maxUint64 with 18446744073709551615.
    change (2 ^ 63) with 9223372036854775808 in Hu. lia.
Qed.

(** Reading back the base-10 text of a 64-bit integer gives the integer. *)
Lemma Atoi_Itoa (i : Z) :
  - 2 ^ 63 <= i < 2 ^ 63 -> Atoi (Itoa i) = (i, None).
Proof.
  intros Hi. unfold Atoi, Itoa.
  destruct (Z.ltb_spec i 0) as [Hneg|Hpos].
  - unfold ParseInt.
    change (Ascii.eqb "-" "-") with true.
    change (Ascii.eqb "-" "+") with false.
    cbv zeta. cbn [orb].
    rewrite ParseUint_formatBits by lia.
    cbn [negb andb].
    destruct (Z.ltb_spec (2 ^ 63) (- i)); [lia|].
    f_equal. lia.
  - destruct (formatBits_head 19 i EmptyString Hpos) as (d & t & Hd & Hf).
    pose proof (ParseUint_formatBits i ltac:(lia)) as Hp.
    rewrite Hf in *. unfold ParseInt.
    destruct (digit_not_sign d Hd) as [-> ->].
    cbv zeta. cbn [orb]. rewrite Hp. cbn [negb andb].
    destruct (Z.leb_spec (2 ^ 63) i); [lia|]. reflexivity.
Qed.

Lemma Itoa_no_separator (i : Z) (c : ascii) :
  c = BAR \/ c = LF -> Strings.ContainsByte (Itoa i) c = false.
Proof.
  intros Hc. unfold Itoa. destruct (Z.ltb_spec i 0).
  - cbn [Strings.ContainsByte].
    rewrite formatBits_no_separator by (auto; lia).
    destruct Hc as [-> | ->]; reflexivity.
  - rewrite formatBits_no_separator by (auto; lia). reflexivity.
Qed.

(** With an error, [Atoi] returns 0 or the nearest bound of [int]. *)
Lemma Atoi_error_fallback (s : string) :
  snd (Atoi s) <> None -> atoiFallback (fst (Atoi s)) = true.
Proof.
  unfold Atoi, ParseInt. destruct s as [|c rest]; [reflexivity|].
  cbv zeta. destruct (ParseUint _) as [un e].
  destruct e as [[|]|]; [reflexivity| |];
    repeat match goal with
           | |- context [if ?b then _ else _] => destruct b
           end; simpl; (reflexivity || congruence).
Qed.

Lemma atoiFallback_invalid (v : Z) :
  atoiFallback v = true -> (v <? 100) || (999 <? v) = true.
Proof.
  unfold atoiFallback. change (2 ^ 63) with 9223372036854775808.
  intros Hv. apply orb_true_iff in Hv as [Hv|Hv];
    [apply orb_true_iff in Hv as [Hv|Hv]|];
    apply Z.eqb_eq in Hv; subst v; reflexivity.
Qed.

End AtoiFacts.

(** * Facts about the handler *)

Section HandlerFacts.

Import Httptest Main.

Lemma index_in_range {W : Type} (l : list string) (i : nat) (w : W) :
  (i < length l)%nat ->
  index l (Z.of_nat i) w = Returned (nth i l EmptyString) w.
Proof.
  intros Hi. unfold index.
  destruct (Z.ltb_spec (Z.of_nat i) 0); [lia|].
  destruct (Z.leb_spec (Z.of_nat (length l)) (Z.of_nat i)); [lia|].
  cbn [orb]. unfold ret. rewrite Nat2Z.id. reflexivity.
Qed.

Lemma emit_valid (status : Z) (body : string) :
  100 <= status <= 999 -> emit status body = Returned tt (response status body).
Proof.
  intros Hs. unfold emit, bind. cbn.
  unfold recWriteHeader. cbn.
  destruct (Z.ltb_spec status 100); [lia|].
  destruct (Z.ltb_spec 999 status); [lia|].
  reflexivity.
Qed.

Lemma emit_invalid (status : Z) (body : string) :
  (status <? 100) || (999 <? status) = true ->
  emit status body = Panicked (InvalidWriteHeaderCode status) NewRecorder.
Proof.
  intros Hs. unfold emit, bind. cbn.
  unfold recWriteHeader. cbn. rewrite Hs. reflexivity.
Qed.

Lemma respond_parts (last body field : string) (rest : list string) :
  Strings.Split last BAR = body :: field :: rest ->
  respond last = emit (fst (Strconv.Atoi field)) body.
Proof.
  intros Hp. unfold respond, emit. rewrite Hp. unfold bind at 1.
  change 1 with (Z.of_nat 1).
  rewrite index_in_range by (simpl; lia). cbn [nth].
  destruct (Strconv.Atoi field) as [status e]. cbn [fst].
  unfold bind. destruct (WriteHeader status NewRecorder); [|reflexivity].
  change 0 with (Z.of_nat 0).
  rewrite index_in_range by (simpl; lia). reflexivity.
Qed.

Lemma respond_no_separator (last : string) :
  Strings.ContainsByte last BAR = false ->
  respond last = Panicked (IndexOutOfRange 1 1) NewRecorder.
Proof.
  intros Hp. unfold respond. rewrite (Split_no_sep BAR last Hp). reflexivity.
Qed.

Lemma serve_lines (IM : list string -> Instantiation)
    (jsb path o last final : string) (pre : list string) :
  IM (guestArgs jsb) = {| out := o; err := None |} ->
  String.eqb path "/favicon.ico" = false ->
  Strings.Split o LF = (pre ++ [last; final])%list ->
  serve IM jsb path = respond last.
Proof.
  intros Hrun Hpath Hlines. unfold serve, handler.
  rewrite Hpath. fold (guestArgs jsb). rewrite Hrun. cbn [err out].
  rewrite Hlines. unfold bind at 1.
  replace (Z.of_nat (length (pre ++ [last; final])%list) - 2)
    with (Z.of_nat (length pre))
    by (rewrite length_app; simpl; lia).
  rewrite index_in_range by (rewrite length_app; simpl; lia).
  rewrite nth_middle. reflexivity.
Qed.

Lemma penultimate (l : list string) :
  (2 <= length l)%nat ->
  exists pre final,
    l = (pre ++ [nth (length l - 2) l EmptyString; final])%list.
Proof.
  induction l as [|a l IH]; simpl; [lia|]. intros Hl.
  destruct l as [|b l]; [simpl in Hl; lia|].
  destruct l as [|c l].
  - exists [], b. reflexivity.
  - destruct IH as (pre & final & Hpre); [simpl; lia|].
    exists (a :: pre), final.
    replace (length (b :: c :: l) - 1)%nat
      with (S (length (b :: c :: l) - 2))%nat by (simpl; lia).
    cbn [nth]. rewrite <- app_comm_cons. f_equal. exact Hpre.
Qed.

Lemma Split_line (last : string) :
  Strings.ContainsByte last LF = false ->
  Strings.Split (line last) LF = ([] ++ [last; EmptyString])%list.
Proof.
  intros Hl. unfold line. rewrite Split_app, (Split_no_sep LF last Hl).
  reflexivity.
Qed.

Lemma append_assoc (a b c : string) : (a +:+ b) +:+ c = a +:+ (b +:+ c).
Proof.
  induction a as [|x a IH]; [reflexivity|].
  change (String x ((a +:+ b) +:+ c) = String x (a +:+ (b +:+ c))).
  f_equal. exact IH.
Qed.

Lemma Split_trailer (logs last : string) :
  whole_lines logs = true ->
  Strings.ContainsByte last LF = false ->
  exists pre,
    Strings.Split (logs +:+ line last) LF = (pre ++ [last; EmptyString])%list.
Proof.
  intros Hlogs Hlast. destruct (whole_lines_inv logs Hlogs) as [-> | [l ->]].
  - exists []. apply Split_line. exact Hlast.
  - exists (Strings.Split l LF).
    change (line l +:+ line last) with ((l +:+ String LF EmptyString) +:+ line last).
    rewrite append_assoc.
    change (String LF EmptyString +:+ line last) with (String LF (line last)).
    rewrite Split_app. f_equal. apply (Split_line last Hlast).
Qed.

Lemma serve_trailer (IM : list string -> Instantiation)
    (jsb path logs last : string) :
  IM (guestArgs jsb) = {| out := logs +:+ line last; err := None |} ->
  String.eqb path "/favicon.ico" = false ->
  whole_lines logs = true ->
  Strings.ContainsByte last LF = false ->
  serve IM jsb path = respond last.
Proof.
  intros Hrun Hpath Hlogs Hlast.
  destruct (Split_trailer logs last Hlogs Hlast) as [pre Hpre].
  exact (serve_lines IM jsb path _ last EmptyString pre Hrun Hpath Hpre).
Qed.

Lemma Split_hd_Cut (s : string) (sep : ascii) :
  hd EmptyString (Strings.Split s sep) = fst (fst (Strings.Cut s sep)).
Proof.
  induction s as [|c s IH]; simpl; [reflexivity|].
  destruct (Ascii.eqb c sep); [reflexivity|].
  pose proof (Split_not_nil sep s) as Hne.
  destruct (Strings.Split s sep) as [|p ps]; [congruence|].
  destruct (Strings.Cut s sep) as [[b a] f]. simpl in *. congruence.
Qed.

Lemma Split_Cut (s : string) (sep : ascii) :
  Strings.ContainsByte s sep = true ->
  Strings.Split s sep
  = fst (fst (Strings.Cut s sep))
      :: Strings.Split (snd (fst (Strings.Cut s sep))) sep.
Proof.
  intros Hs. destruct (Cut_found sep s Hs) as (b & a & Hcut & Heq & Hb).
  rewrite Hcut. cbn [fst snd]. rewrite Heq at 1.
  rewrite Split_app, (Split_no_sep sep b Hb). reflexivity.
Qed.

End HandlerFacts.

(** * The handler on any response writer, and on the server's *)

Section WriterFacts.

Import Main.

Context {W : Type} `{ResponseWriter W}.

Variable InstantiateModule : list string -> Instantiation.
Variables jsb path : string.
Hypothesis not_favicon : String.eqb path "/favicon.ico" = false.

Lemma handler_lines_on (o last final : string) (pre : list string) (w : W) :
  InstantiateModule (guestArgs jsb) = {| out := o; err := None |} ->
  Strings.Split o LF = (pre ++ [last; final])%list ->
  handler InstantiateModule jsb path w = respondTo last w.
Proof.
  intros Hrun Hlines. unfold handler, respondTo.
  rewrite not_favicon. fold (guestArgs jsb). rewrite Hrun. cbn [err out].
  rewrite Hlines. unfold bind at 1.
  replace (Z.of_nat (length (pre ++ [last; final])%list) - 2)
    with (Z.of_nat (length pre))
    by (rewrite length_app; simpl; lia).
  rewrite index_in_range by (rewrite length_app; simpl; lia).
  rewrite nth_middle. reflexivity.
Qed.

Lemma handler_one_line_on (o : string) (w : W) :
  InstantiateModule (guestArgs jsb) = {| out := o; err := None |} ->
  (length (Strings.Split o LF) < 2)%nat ->
  handler InstantiateModule jsb path w
  = Panicked (IndexOutOfRange (-1) 1) w.
Proof.
  intros Hrun Hlen. pose proof (Split_length_pos LF o) as Hpos.
  unfold handler. rewrite not_favicon.
  fold (guestArgs jsb). rewrite Hrun. cbn [err out].
  assert (Hone : length (Strings.Split o LF) = 1%nat) by lia.
  unfold bind, index. rewrite Hone. reflexivity.
Qed.

Lemma respondTo_parts (last body field : string) (rest : list string) (w : W) :
  Strings.Split last BAR = body :: field :: rest ->
  respondTo last w
  = (_ <- WriteHeader (fst (Strconv.Atoi field)) ;; Write body) w.
Proof.
  intros Hp. unfold respondTo. rewrite Hp. unfold bind at 1.
  change 1 with (Z.of_nat 1).
  rewrite index_in_range by (simpl; lia). cbn [nth].
  destruct (Strconv.Atoi field) as [status e]. cbn [fst].
  unfold bind. destruct (WriteHeader status w); [|reflexivity].
  change 0 with (Z.of_nat 0).
  rewrite index_in_range by (simpl; lia). reflexivity.
Qed.

Lemma respondTo_classified (last : string) (w : W) :
  respondTo last w
  = if Strings.ContainsByte last BAR
    then (_ <- WriteHeader (fst (Strconv.Atoi (statusField last))) ;;
          Write (specBody last)) w
    else Panicked (IndexOutOfRange 1 1) w.
Proof.
  destruct (Strings.ContainsByte last BAR) eqn:Hbar.
  - pose proof (Split_Cut last BAR Hbar) as Hsplit.
    pose proof (Split_hd_Cut (specStatusField last) BAR) as Hhd.
    pose proof (Split_not_nil BAR (specStatusField last)) as Hne.
    unfold statusField, specBody, specStatusField in *.
    destruct (Strings.Cut last BAR) as [[before after] found].
    cbn [fst snd] in *.
    destruct (Strings.Split after BAR) as [|f fs]; [congruence|].
    rewrite Hsplit. cbn [nth]. apply (respondTo_parts _ _ _ _ w Hsplit).
  - unfold respondTo. rewrite (Split_no_sep BAR last Hbar). reflexivity.
Qed.

Lemma handler_classified_on (o : string) (w : W) :
  InstantiateModule (guestArgs jsb) = {| out := o; err := None |} ->
  let lines := Strings.Split o LF in
  let last := nth (length lines - 2) lines EmptyString in
  handler InstantiateModule jsb path w
  = if (length lines <? 2)%nat
    then Panicked (IndexOutOfRange (-1) 1) w
    else if Strings.ContainsByte last BAR
         then (_ <- WriteHeader (fst (Strconv.Atoi (statusField last))) ;;
               Write (specBody last)) w
         else Panicked (IndexOutOfRange 1 1) w.
Proof.
  intros Hrun lines last.
  destruct (Nat.ltb_spec (length lines) 2) as [Hlt|Hge].
  - apply (handler_one_line_on o); assumption.
  - destruct (penultimate _ Hge) as (pre & final & Hpre).
    fold last in Hpre.
    rewrite (handler_lines_on o last final pre w Hrun Hpre).
    apply respondTo_classified.
Qed.

End WriterFacts.

Section ServerFacts.

Import Main.

Lemma server_answer (method : string) (code : Z) (body : string) :
  100 <= code <= 999 ->
  (_ <- WriteHeader code ;; Write body) (Http.newResponse method)
  = Returned tt (Http.answer method code body).
Proof.
  intros Hc. unfold bind. cbn [WriteHeader Write Http.server_writer].
  unfold Http.WriteHeader at 1. cbn [Http.wroteHeader Http.newResponse].
  destruct (Z.ltb_spec code 100); [lia|].
  destruct (Z.ltb_spec 999 code); [lia|]. cbn [orb].
  unfold Http.answer. cbv zeta.
  destruct ((100 <=? code) && (code <=? 199) && negb (code =? 101)) eqn:Hinf.
  - unfold Http.Write, bind, Http.WriteHeader.
    cbn [Http.wroteHeader Http.status Http.reqMethod Http.informational
         Http.written Http.newResponse app].
    change ((200 <? 100) || (999 <? 200)) with false.
    change ((100 <=? 200) && (200 <=? 199) && negb (200 =? 101)) with false.
    cbv iota.
    cbn [Http.wroteHeader Http.status Http.reqMethod Http.informational
         Http.written Http.newResponse app].
    change (Http.bodyAllowedForStatus 200) with true. cbn [negb andb].
    destruct body as [|c body]; destruct (String.eqb method "HEAD");
      reflexivity.
  - unfold Http.Write, bind.
    cbn [Http.wroteHeader Http.status Http.reqMethod Http.informational
         Http.written Http.newResponse app].
    destruct body as [|c body];
      destruct (Http.bodyAllowedForStatus code);
      destruct (String.eqb method "HEAD"); reflexivity.
Qed.

Lemma server_refuses (method : string) (code : Z) (body : string) :
  (code <? 100) || (999 <? code) = true ->
  (_ <- WriteHeader code ;; Write body) (Http.newResponse method)
  = Panicked (InvalidWriteHeaderCode code) (Http.newResponse method).
Proof.
  intros Hc. unfold bind. cbn [WriteHeader Http.server_writer].
  unfold Http.WriteHeader. cbn [Http.wroteHeader Http.newResponse].
  rewrite Hc. reflexivity.
Qed.

Lemma answer_plain (method : string) (code : Z) (body : string) :
  200 <= code <= 999 -> code <> 204 -> code <> 304 ->
  String.eqb method "HEAD" = false ->
  Http.answer method code body = Http.mkResponse method code true [] body.
Proof.
  intros Hc H204 H304 Hhead. unfold Http.answer, Http.bodyAllowedForStatus.
  cbv zeta.
  assert (H199 : (code <=? 199) = false) by (apply Z.leb_gt; lia).
  assert (E204 : (code =? 204) = false) by (apply Z.eqb_neq; exact H204).
  assert (E304 : (code =? 304) = false) by (apply Z.eqb_neq; exact H304).
  rewrite !H199, !andb_false_r. cbn [andb].
  rewrite !H199, !andb_false_r, E204, E304, Hhead. reflexivity.
Qed.

Variable InstantiateModule : list string -> Instantiation.
Variables jsb path : string.
Hypothesis not_favicon : String.eqb path "/favicon.ico" = false.

Lemma serveHTTP_classified (method o : string) :
  InstantiateModule (guestArgs jsb) = {| out := o; err := None |} ->
  let lines := Strings.Split o LF in
  let last := nth (length lines - 2) lines EmptyString in
  let code := fst (Strconv.Atoi (statusField last)) in
  serveHTTP InstantiateModule jsb method path
  = if (length lines <? 2)%nat
    then Panicked (IndexOutOfRange (-1) 1) (Http.newResponse method)
    else if Strings.ContainsByte last BAR
         then if (code <? 100) || (999 <? code)
              then Panicked (InvalidWriteHeaderCode code)
                     (Http.newResponse method)
              else Returned tt (Http.answer method code (specBody last))
         else Panicked (IndexOutOfRange 1 1) (Http.newResponse method).
Proof.
  intros Hrun lines last code. unfold serveHTTP, bind.
  rewrite (handler_classified_on InstantiateModule jsb path not_favicon o _ Hrun).
  fold lines last code.
  destruct (length lines <? 2)%nat; [reflexivity|].
  destruct (Strings.ContainsByte last BAR); [|reflexivity].
  destruct ((code <? 100) || (999 <? code)) eqn:Hc.
  - pose proof (server_refuses method code (specBody last) Hc) as Hr.
    rewrite Hr. reflexivity.
  - apply orb_false_iff in Hc as [Hlo Hhi].
    apply Z.ltb_ge in Hlo, Hhi.
    pose proof (server_answer method code (specBody last) ltac:(lia)) as Ha.
    rewrite Ha. reflexivity.
Qed.

End ServerFacts.

(** * The wire contract *)

Section Getters.

Import Proto.

(** C10.  Every getter of [HTTPRequest], [HeaderFields] and [HTTPResponse]
    is total and nil-safe: on a non-nil receiver it returns the field, on
    the nil receiver it returns the zero value of the field's type (the nil
    slice or map, the empty string, or 0). *)
Theorem C10_getters_nil_safe :
  (forall r : HTTPRequest,
      GetBody (Some r) = Body r /\ GetMethod (Some r) = Method r
      /\ GetURL (Some r) = URL r /\ GetEndpointID (Some r) = EndpointID r
      /\ GetID (Some r) = ID r /\ GetHeader (Some r) = Header r
      /\ GetRuntime (Some r) = Runtime r
      /\ GetActiveDeployID (Some r) = ActiveDeployID r
      /\ GetEnv (Some r) = Env r)
  /\ (GetBody None = None /\ GetMethod None = EmptyString
      /\ GetURL None = EmptyString /\ GetEndpointID None = EmptyString
      /\ GetID None = EmptyString /\ GetHeader None = None
      /\ GetRuntime None = EmptyString
      /\ GetActiveDeployID None = EmptyString /\ GetEnv None = None)
  /\ (forall h : HeaderFields, GetFields (Some h) = Fields h)
  /\ GetFields None = None
  /\ (forall r : HTTPResponse,
        GetResponse (Some r) = Response r
        /\ GetStatusCode (Some r) = StatusCode r
        /\ GetRequestID (Some r) = RequestID r)
  /\ (GetResponse None = None /\ GetStatusCode None = 0
      /\ GetRequestID None = EmptyString).
Proof.
  repeat split.
Qed.

End Getters.

(** * The handler of [run] *)

Section Handler.

Import Httptest Main.

Variable InstantiateModule : list string -> Instantiation.
Variables jsb path : string.
Hypothesis not_favicon : String.eqb path "/favicon.ico" = false.

(** C1, as the code has it.  When the captured output consists of whole
    lines followed by the trailer line [body|N], where [body] contains
    neither the separator nor a line feed and [N] is the base-10 text of a
    status code between 200 and 999 other than 204 and 304, and the
    request is not a HEAD, the response the server sends has the status
    [N] and the body [body], byte for byte, with no informational
    response ahead of it. *)
Theorem C1_trailer_gives_status_and_body (method logs body : string) (N : Z) :
  InstantiateModule (guestArgs jsb)
  = {| out := logs +:+ line (body +:+ String BAR (Strconv.Itoa N));
       err := None |} ->
  whole_lines logs = true ->
  Strings.ContainsByte body BAR = false ->
  Strings.ContainsByte body LF = false ->
  200 <= N <= 999 ->
  N <> 204 ->
  N <> 304 ->
  String.eqb method "HEAD" = false ->
  serveHTTP InstantiateModule jsb method path
  = Returned tt (Http.mkResponse method N true [] body).
Proof.
  intros Hrun Hlogs Hbar Hlf HN H204 H304 Hhead.
  set (last := body +:+ String BAR (Strconv.Itoa N)) in *.
  assert (Hlast : Strings.ContainsByte last LF = false).
  { unfold last. rewrite ContainsByte_app, Hlf.
    cbn [Strings.ContainsByte orb].
    rewrite Itoa_no_separator by (right; reflexivity). reflexivity. }
  destruct (Split_trailer logs last Hlogs Hlast) as [pre Hpre].
  assert (Hparts : Strings.Split last BAR = [body; Strconv.Itoa N]).
  { unfold last. rewrite Split_app, (Split_no_sep BAR body Hbar).
    rewrite (Split_no_sep BAR (Strconv.Itoa N)); [reflexivity|].
    apply Itoa_no_separator. left. reflexivity. }
  unfold serveHTTP, bind.
  rewrite (handler_lines_on InstantiateModule jsb path not_favicon
             _ last EmptyString pre _ Hrun Hpre).
  rewrite (respondTo_parts last body (Strconv.Itoa N) [] _ Hparts).
  rewrite Atoi_Itoa by lia. cbn [fst].
  rewrite (server_answer method N body) by lia.
  rewrite (answer_plain method N body HN H204 H304 Hhead).
  reflexivity.
Qed.

(** C2.  When the line the handler selects contains no separator,
    [parts] has a single element and [parts[1]] panics before anything is
    written: the handler produces no response at all, in particular no
    502. *)
Theorem C2_no_separator_panics (o : string) :
  InstantiateModule (guestArgs jsb) = {| out := o; err := None |} ->
  (2 <= length (Strings.Split o LF))%nat ->
  Strings.ContainsByte
    (nth (length (Strings.Split o LF) - 2) (Strings.Split o LF) EmptyString)
    BAR = false ->
  serve InstantiateModule jsb path
  = Panicked (IndexOutOfRange 1 1) NewRecorder.
Proof.
  intros Hrun Hlen Hbar.
  destruct (penultimate _ Hlen) as (pre & final & Hpre).
  rewrite (serve_lines _ _ _ o _ final pre Hrun not_favicon Hpre).
  apply respond_no_separator. exact Hbar.
Qed.

(** C3.  When the selected line has a separator but [strconv.Atoi] returns
    an error for [parts[1]], the handler drops the error and hands Atoi's
    value, which is then 0 or a bound of [int], to [WriteHeader]; that
    value is no status code, [WriteHeader] panics on it, and neither a
    status nor a byte of the body is written: the handler produces no
    error status of its own. *)
Theorem C3_unparsed_status_is_passed_on (logs last : string)
    (e : Strconv.NumError) :
  InstantiateModule (guestArgs jsb)
  = {| out := logs +:+ line last; err := None |} ->
  whole_lines logs = true ->
  Strings.ContainsByte last LF = false ->
  Strings.ContainsByte last BAR = true ->
  snd (Strconv.Atoi (statusField last)) = Some e ->
  atoiFallback (fst (Strconv.Atoi (statusField last))) = true
  /\ serve InstantiateModule jsb path
     = Panicked (InvalidWriteHeaderCode (fst (Strconv.Atoi (statusField last))))
         NewRecorder.
Proof.
  intros Hrun Hlogs Hlf Hbar Herr.
  assert (Hfb : atoiFallback (fst (Strconv.Atoi (statusField last))) = true).
  { apply Atoi_error_fallback. rewrite Herr. discriminate. }
  split; [exact Hfb|].
  rewrite (serve_trailer _ _ _ logs _ Hrun not_favicon Hlogs Hlf).
  pose proof (Split_Cut last BAR Hbar) as Hsplit.
  pose proof (Split_not_nil BAR (snd (fst (Strings.Cut last BAR)))) as Hne.
  unfold statusField in *.
  destruct (Strings.Split (snd (fst (Strings.Cut last BAR))) BAR)
    as [|field rest]; [congruence|].
  rewrite (respond_parts _ _ _ _ Hsplit).
  rewrite Hsplit in *. cbn [nth] in *.
  apply emit_invalid. apply atoiFallback_invalid. exact Hfb.
Qed.

(** C4.  When the captured output has no line feed, [lines] has a single
    element and [lines[len(lines)-2]] is the index -1: the handler panics
    on it and writes nothing. *)
Theorem C4_short_output_panics (o : string) :
  InstantiateModule (guestArgs jsb) = {| out := o; err := None |} ->
  (length (Strings.Split o LF) < 2)%nat ->
  serve InstantiateModule jsb path
  = Panicked (IndexOutOfRange (-1) 1) NewRecorder.
Proof.
  intros Hrun Hlen. pose proof (Split_length_pos LF o) as Hpos.
  unfold serve, handler. rewrite not_favicon.
  fold (guestArgs jsb). rewrite Hrun. cbn [err out].
  assert (Hone : length (Strings.Split o LF) = 1%nat) by lia.
  unfold bind, index. rewrite Hone. reflexivity.
Qed.

(** C5.  When the output splits into at least two elements at the line
    feeds, the trailer candidate the handler decodes is the element at
    index [length - 2], and the handler answers exactly as it does to the
    output that is this element alone: the elements before it and the
    last element do not matter. *)
Theorem C5_candidate_is_penultimate (o : string) :
  InstantiateModule (guestArgs jsb) = {| out := o; err := None |} ->
  (2 <= length (Strings.Split o LF))%nat ->
  serve InstantiateModule jsb path
  = respond (nth (length (Strings.Split o LF) - 2)
                 (Strings.Split o LF) EmptyString)
  /\ serve InstantiateModule jsb path
     = serve
         (exits (line (nth (length (Strings.Split o LF) - 2)
                           (Strings.Split o LF) EmptyString)))
         jsb path.
Proof.
  intros Hrun Hlen.
  destruct (penultimate _ Hlen) as (pre & final & Hpre).
  set (last := nth (length (Strings.Split o LF) - 2)
                   (Strings.Split o LF) EmptyString) in *.
  rewrite (serve_lines _ _ _ o last final pre Hrun not_favicon Hpre).
  split; [reflexivity|]. symmetry.
  apply (serve_lines (exits (line last)) jsb path (line last)
           last EmptyString []); [reflexivity | exact not_favicon |].
  apply Split_line. apply (Split_pieces LF o).
  rewrite Hpre. apply in_or_app. right. left. reflexivity.
Qed.



End Handler.

(** * The theorems at concrete outputs *)

Section Scenarios.

Import Httptest Main.

(** The scenario of the specification: a GET of [/] answered by a guest
    that emits [hello|200] and a line feed gets the status 200 and the
    body [hello]. *)
Lemma C1_witness_hello_200 :
  whole_lines EmptyString = true
  /\ Strings.ContainsByte "hello" BAR = false
  /\ Strings.ContainsByte "hello" LF = false
  /\ 200 <= 200 <= 999
  /\ serveHTTP (exits (line "hello|200")) EmptyString "GET" "/"
     = Returned tt (Http.mkResponse "GET" 200 true [] "hello").
Proof.
  split; [reflexivity|]. split; [reflexivity|]. split; [reflexivity|].
  split; [lia|].
  apply (C1_trailer_gives_status_and_body
           (exits (line "hello|200")) EmptyString "/" eq_refl
           "GET" EmptyString "hello" 200);
    [reflexivity | reflexivity | reflexivity | reflexivity | lia
    | lia | lia | reflexivity].
Defined.

(** Well-formed trailers whose status the response does not carry, or
    whose body it does not carry: [WriteHeader] refuses 99 and 1000 and
    nothing is sent; 100 is sent as an informational response and the
    final status is 200; with 101, 204 and 304, and to a HEAD request, no
    byte of the body is sent. *)
Lemma C1_counterexample_status_or_body_not_carried :
  Strconv.Itoa 99 = "99" /\ Strconv.Itoa 1000 = "1000"
  /\ Strings.ContainsByte "hello" BAR = false
  /\ Strings.ContainsByte "hello" LF = false
  /\ serveHTTP (exits (line "hello|99")) EmptyString "GET" "/"
     = Panicked (InvalidWriteHeaderCode 99) (Http.newResponse "GET")
  /\ serveHTTP (exits (line "hello|1000")) EmptyString "GET" "/"
     = Panicked (InvalidWriteHeaderCode 1000) (Http.newResponse "GET")
  /\ serveHTTP (exits (line "hello|100")) EmptyString "GET" "/"
     = Returned tt (Http.mkResponse "GET" 200 true [100] "hello")
  /\ serveHTTP (exits (line "hello|101")) EmptyString "GET" "/"
     = Returned tt (Http.mkResponse "GET" 101 true [] EmptyString)
  /\ serveHTTP (exits (line "hello|204")) EmptyString "GET" "/"
     = Returned tt (Http.mkResponse "GET" 204 true [] EmptyString)
  /\ serveHTTP (exits (line "hello|304")) EmptyString "GET" "/"
     = Returned tt (Http.mkResponse "GET" 304 true [] EmptyString)
  /\ serveHTTP (exits (line "hello|200")) EmptyString "HEAD" "/"
     = Returned tt (Http.mkResponse "HEAD" 200 true [] EmptyString)
  /\ serveHTTP (exits (line "hello|204")) EmptyString "GET" "/"
     <> Returned tt (Http.mkResponse "GET" 204 true [] "hello")
  /\ serveHTTP (exits (line "hello|100")) EmptyString "GET" "/"
     <> Returned tt (Http.mkResponse "GET" 100 true [] "hello").
Proof.
  repeat split; try reflexivity; discriminate.
Qed.

(** A guest that emits only [garbage] and a line feed: the handler panics
    at [parts[1]]. *)
Lemma C2_witness_garbage :
  (2 <= length (Strings.Split (line "garbage") LF))%nat
  /\ serve (exits (line "garbage")) EmptyString "/"
     = Panicked (IndexOutOfRange 1 1) NewRecorder.
Proof.
  split; [simpl; lia|].
  apply (C2_no_separator_panics
           (exits (line "garbage")) EmptyString "/" eq_refl
           (line "garbage"));
    [reflexivity | simpl; lia | reflexivity].
Defined.

(** The status field [abc] of the trailer [x|abc] is no integer: Atoi's 0
    goes to [WriteHeader]. *)
Lemma C3_witness_status_abc :
  Strconv.Atoi (statusField "x|abc") = (0, Some Strconv.ErrSyntax)
  /\ atoiFallback (fst (Strconv.Atoi (statusField "x|abc"))) = true
  /\ serve (exits (line "x|abc")) EmptyString "/"
     = Panicked
         (InvalidWriteHeaderCode (fst (Strconv.Atoi (statusField "x|abc"))))
         NewRecorder.
Proof.
  split; [reflexivity|].
  apply (C3_unparsed_status_is_passed_on
           (exits (line "x|abc")) EmptyString "/" eq_refl
           EmptyString "x|abc" Strconv.ErrSyntax);
    reflexivity.
Defined.

(** For the trailer [x|abc] the client gets no status from the handler: no
    header is written, so no host-generated error status either, and the
    value the handler tried to send is the 0 that Atoi made of [abc]. *)
Lemma status_abc_no_error_status :
  Strings.ContainsByte "x|abc" BAR = true
  /\ Strconv.Atoi (statusField "x|abc") = (0, Some Strconv.ErrSyntax)
  /\ serve (exits (line "x|abc")) EmptyString "/"
     = Panicked (InvalidWriteHeaderCode 0) NewRecorder
  /\ wroteHeader (writer (serve (exits (line "x|abc")) EmptyString "/"))
     = false
  /\ ~ (exists w, serve (exits (line "x|abc")) EmptyString "/" = Returned tt w
                  /\ 400 <= Code w <= 599).
Proof.
  repeat split; try reflexivity.
  intros (w & Hw & _). discriminate Hw.
Qed.

(** A guest that writes nothing: the handler panics at
    [lines[len(lines)-2]]. *)
Lemma C4_witness_empty_output :
  (length (Strings.Split EmptyString LF) < 2)%nat
  /\ serve (exits EmptyString) EmptyString "/"
     = Panicked (IndexOutOfRange (-1) 1) NewRecorder.
Proof.
  split; [simpl; lia|].
  apply (C4_short_output_panics
           (exits EmptyString) EmptyString "/" eq_refl EmptyString);
    [reflexivity | simpl; lia].
Defined.

(** Two log lines, the trailer [ok|201] and an unterminated last line:
    the answer is the one to [ok|201] alone. *)
Lemma C5_witness_logs_and_tail :
  Strings.Split (line "log 1" +:+ line "log|2" +:+ line "ok|201" +:+ "tail|500") LF
  = ["log 1"; "log|2"; "ok|201"; "tail|500"]
  /\ serve (exits (line "ok|201")) EmptyString "/"
     = Returned tt (response 201 "ok")
  /\ serve (exits (line "log 1" +:+ line "log|2" +:+ line "ok|201" +:+ "tail|500"))
       EmptyString "/"
     = respond "ok|201"
  /\ serve (exits (line "log 1" +:+ line "log|2" +:+ line "ok|201" +:+ "tail|500"))
       EmptyString "/"
     = serve (exits (line "ok|201")) EmptyString "/".
Proof.
  split; [reflexivity|]. split; [reflexivity|].
  apply (C5_candidate_is_penultimate
           (exits (line "log 1" +:+ line "log|2" +:+ line "ok|201" +:+ "tail|500"))
           EmptyString "/" eq_refl
           (line "log 1" +:+ line "log|2" +:+ line "ok|201" +:+ "tail|500"));
    [reflexivity | simpl; lia].
Defined.





End Scenarios.

(** * More on the handler of [run] *)

Section HandlerOutcomes.

Import Httptest Main.

Variable InstantiateModule : list string -> Instantiation.
Variables jsb path : string.
Hypothesis not_favicon : String.eqb path "/favicon.ico" = false.

Lemma serve_one_line (o : string) :
  InstantiateModule (guestArgs jsb) = {| out := o; err := None |} ->
  (length (Strings.Split o LF) < 2)%nat ->
  serve InstantiateModule jsb path
  = Panicked (IndexOutOfRange (-1) 1) NewRecorder.
Proof.
  intros Hrun Hlen. pose proof (Split_length_pos LF o) as Hpos.
  unfold serve, handler. rewrite not_favicon.
  fold (guestArgs jsb). rewrite Hrun. cbn [err out].
  assert (Hone : length (Strings.Split o LF) = 1%nat) by lia.
  unfold bind, index. rewrite Hone. reflexivity.
Qed.

Lemma respond_with_separator (last : string) :
  Strings.ContainsByte last BAR = true ->
  statusField last = specBody (specStatusField last)
  /\ respond last
     = emit (fst (Strconv.Atoi (statusField last))) (specBody last).
Proof.
  intros Hbar.
  pose proof (Split_Cut last BAR Hbar) as Hsplit.
  pose proof (Split_hd_Cut (specStatusField last) BAR) as Hhd.
  pose proof (Split_not_nil BAR (specStatusField last)) as Hne.
  unfold statusField, specBody, specStatusField in *.
  destruct (Strings.Cut last BAR) as [[before after] found].
  cbn [fst snd] in *.
  destruct (Strings.Cut after BAR) as [[field rest] found'].
  cbn [fst snd] in *.
  destruct (Strings.Split after BAR) as [|f fs]; [congruence|].
  cbn [hd] in Hhd. subst f. rewrite Hsplit. cbn [nth].
  split; [reflexivity|]. apply (respond_parts _ _ _ _ Hsplit).
Qed.

(** The three ways the handler ends on the output of a guest that exited
    normally. *)
Lemma serve_classified (o : string) :
  InstantiateModule (guestArgs jsb) = {| out := o; err := None |} ->
  let lines := Strings.Split o LF in
  let last := nth (length lines - 2) lines EmptyString in
  serve InstantiateModule jsb path
  = if (length lines <? 2)%nat
    then Panicked (IndexOutOfRange (-1) 1) NewRecorder
    else if Strings.ContainsByte last BAR
         then emit (fst (Strconv.Atoi (statusField last))) (specBody last)
         else Panicked (IndexOutOfRange 1 1) NewRecorder.
Proof.
  intros Hrun lines last.
  destruct (Nat.ltb_spec (length lines) 2) as [Hlt|Hge].
  - apply (serve_one_line o); assumption.
  - destruct (penultimate _ Hge) as (pre & final & Hpre).
    fold last in Hpre.
    rewrite (serve_lines _ _ _ o last final pre Hrun not_favicon Hpre).
    destruct (Strings.ContainsByte last BAR) eqn:Hbar.
    + apply respond_with_separator. exact Hbar.
    + apply respond_no_separator. exact Hbar.
Qed.

Lemma emit_returned (status : Z) (body : string) (w : ResponseRecorder) :
  emit status body = Returned tt w <->
  100 <= status <= 999 /\ w = response status body.
Proof.
  destruct ((status <? 100) || (999 <? status)) eqn:Hs.
  - rewrite (emit_invalid _ _ Hs). split; [discriminate|].
    intros [Hr _]. apply orb_true_iff in Hs as [Hs|Hs];
      [apply Z.ltb_lt in Hs | apply Z.ltb_lt in Hs]; lia.
  - apply orb_false_iff in Hs as [Hlo Hhi].
    apply Z.ltb_ge in Hlo, Hhi.
    rewrite emit_valid by lia. split.
    + intros [= <-]. split; [lia | reflexivity].
    + intros [_ ->]. reflexivity.
Qed.

(** X1.  On the output of a guest that exited normally, the request is
    answered if and only if the output has at least two elements between
    line feeds, the one before the last contains a separator, and the
    integer [strconv.Atoi] reads from [parts[1]] lies between 100 and 999.
    The answer is then [Http.answer] for this integer and the text before
    the first separator: the integer is the status unless it is an
    informational one other than 101, which is sent ahead of a final
    status 200, and the text is the body unless the final status is 1xx,
    204 or 304 or the request is a HEAD.  In every other case the handler
    panics and nothing has been sent. *)
Theorem handler_answers_iff (method o : string) (w : Http.response) :
  InstantiateModule (guestArgs jsb) = {| out := o; err := None |} ->
  serveHTTP InstantiateModule jsb method path = Returned tt w
  <-> (2 <= length (Strings.Split o LF))%nat
      /\ Strings.ContainsByte
           (nth (length (Strings.Split o LF) - 2) (Strings.Split o LF)
                EmptyString) BAR = true
      /\ 100 <= fst (Strconv.Atoi
                       (statusField
                          (nth (length (Strings.Split o LF) - 2)
                               (Strings.Split o LF) EmptyString))) <= 999
      /\ w = Http.answer method
               (fst (Strconv.Atoi
                       (statusField
                          (nth (length (Strings.Split o LF) - 2)
                               (Strings.Split o LF) EmptyString))))
               (specBody (nth (length (Strings.Split o LF) - 2)
                              (Strings.Split o LF) EmptyString)).
Proof.
  intros Hrun.
  rewrite (serveHTTP_classified InstantiateModule jsb path not_favicon
             method o Hrun).
  set (lines := Strings.Split o LF).
  set (last := nth (length lines - 2) lines EmptyString).
  set (code := fst (Strconv.Atoi (statusField last))).
  destruct (Nat.ltb_spec (length lines) 2) as [Hlt|Hge].
  - split; [discriminate | intros [Hge _]; lia].
  - destruct (Strings.ContainsByte last BAR) eqn:Hbar.
    + destruct ((code <? 100) || (999 <? code)) eqn:Hc.
      * split; [discriminate|]. intros (_ & _ & Hs & _).
        apply orb_true_iff in Hc as [Hc|Hc]; apply Z.ltb_lt in Hc; lia.
      * apply orb_false_iff in Hc as [Hlo Hhi].
        apply Z.ltb_ge in Hlo, Hhi. split.
        -- intros [= <-]. repeat split; auto; lia.
        -- intros (_ & _ & _ & ->). reflexivity.
    + split; [discriminate | intros (_ & Hb & _); discriminate].
Qed.

(** X2.  Whatever the guest wrote, a response the handler decoded from it
    has a status between 100 and 999 and a body that contains neither a
    line feed nor the separator: a body of several lines or with a ["|"]
    cannot be sent. *)
Theorem decoded_body_has_no_separator (o : string) (w : ResponseRecorder) :
  InstantiateModule (guestArgs jsb) = {| out := o; err := None |} ->
  serve InstantiateModule jsb path = Returned tt w ->
  Strings.ContainsByte (Body w) LF = false
  /\ Strings.ContainsByte (Body w) BAR = false
  /\ 100 <= Code w <= 999
  /\ wroteHeader w = true.
Proof.
  intros Hrun Hw. rewrite (serve_classified o Hrun) in Hw.
  set (lines := Strings.Split o LF) in *.
  set (last := nth (length lines - 2) lines EmptyString) in *.
  destruct (Nat.ltb_spec (length lines) 2) as [Hlt|Hge]; [discriminate|].
  destruct (Strings.ContainsByte last BAR) eqn:Hbar; [|discriminate].
  apply emit_returned in Hw as [Hs ->]. cbn [Body Code wroteHeader response].
  destruct (Cut_found BAR last Hbar) as (b & a & Hcut & Heq & Hb).
  assert (Hlast : Strings.ContainsByte last LF = false).
  { apply (Split_pieces LF o). destruct (penultimate _ Hge) as (pre & final & Hpre).
    fold lines last in Hpre. fold lines. rewrite Hpre.
    apply in_or_app. right. left. reflexivity. }
  unfold specBody. rewrite Hcut.
  rewrite Heq, ContainsByte_app in Hlast.
  apply orb_false_iff in Hlast as [Hlf _].
  repeat split; try assumption; lia.
Qed.

End HandlerOutcomes.

Section StatusSuffix.

Import Strconv Httptest Main.

Lemma formatBits_append (fuel : nat) :
  forall (u : Z) (acc s : string),
    formatBits fuel u acc +:+ s = formatBits fuel u (acc +:+ s).
Proof.
  induction fuel as [|fuel IH]; intros u acc s; [reflexivity|].
  cbn [formatBits]. destruct (u <? 10); [reflexivity|].
  rewrite IH. reflexivity.
Qed.

Lemma not_digit_is_syntax_error (c : ascii) (rest : string) (n : Z) :
  isDigit c = false -> parseUintLoop (String c rest) n = (0, Some ErrSyntax).
Proof.
  intros Hc. cbn [parseUintLoop].
  assert (Hb : 0 <= Z.of_N (N_of_ascii c) < 256).
  { pose proof (N_ascii_bounded c). lia. }
  unfold isDigit in Hc. apply andb_false_iff in Hc.
  assert (Hd : 9 < (Z.of_N (N_of_ascii c) - 48) mod 256).
  { destruct Hc as [Hc|Hc]; [apply Z.leb_gt in Hc | apply Z.leb_gt in Hc].
    - replace ((Z.of_N (N_of_ascii c) - 48) mod 256)
        with (Z.of_N (N_of_ascii c) + 208); [lia|].
      apply (Z.mod_unique _ _ (-1)); lia.
    - rewrite Z.mod_small by lia. lia. }
  apply Z.ltb_lt in Hd. rewrite Hd. reflexivity.
Qed.

(** A byte that is no digit after the base-10 text of an integer makes
    [Atoi] fail with a syntax error, whatever follows. *)
Lemma Atoi_Itoa_suffix (i : Z) (c : ascii) (rest : string) :
  -9223372036854775808 <= i <= 9223372036854775807 ->
  isDigit c = false ->
  Atoi (Itoa i +:+ String c rest) = (0, Some ErrSyntax).
Proof.
  intros Hi Hc. unfold Atoi, Itoa.
  assert (Hparse : forall u, 0 <= u <= 9223372036854775808 ->
            ParseUint (formatBits 20 u (String c rest)) = (0, Some ErrSyntax)).
  { intros u Hu. unfold ParseUint.
    pose proof (formatBits_not_empty 19 u (String c rest) ltac:(lia)) as Hne.
    destruct (formatBits 20 u (String c rest)) eqn:Hf; [congruence|].
    rewrite <- Hf. rewrite parse_formatBits.
    - apply not_digit_is_syntax_error. exact Hc.
    - change (10 ^ Z.of_nat 20) with 100000000000000000000. lia.
    - change maxUint64 with 18446744073709551615. lia. }
  destruct (Z.ltb_spec i 0) as [Hneg|Hpos].
  - change (String "-" (formatBits 20 (- i) EmptyString) +:+ String c rest)
      with (String "-" (formatBits 20 (- i) EmptyString +:+ String c rest)).
    rewrite formatBits_append.
    change (EmptyString +:+ String c rest) with (String c rest).
    unfold ParseInt.
    change (Ascii.eqb "-" "-") with true.
    change (Ascii.eqb "-" "+") with false.
    cbv zeta. cbn [orb]. rewrite Hparse by lia. reflexivity.
  - rewrite formatBits_append.
    change (EmptyString +:+ String c rest) with (String c rest).
    destruct (formatBits_head 19 i (String c rest) Hpos) as (d & t & Hd & Hf).
    pose proof (Hparse i ltac:(lia)) as Hp.
    rewrite Hf in *. unfold ParseInt.
    destruct (digit_not_sign d Hd) as [-> ->].
    cbv zeta. cbn [orb]. rewrite Hp. reflexivity.
Qed.

Lemma Cut_app_no_sep (a b : string) (sep : ascii) :
  Strings.ContainsByte a sep = false ->
  fst (fst (Strings.Cut (a +:+ b) sep))
  = a +:+ fst (fst (Strings.Cut b sep)).
Proof.
  induction a as [|x a IH]; [reflexivity|].
  cbn [Strings.ContainsByte]. intros Ha.
  apply orb_false_iff in Ha as [Hx Ha].
  change (String x a +:+ b) with (String x (a +:+ b)).
  cbn [Strings.Cut]. rewrite Hx.
  specialize (IH Ha).
  destruct (Strings.Cut (a +:+ b) sep) as [[b1 a1] f1].
  cbn [fst] in *. rewrite IH. reflexivity.
Qed.

Variable InstantiateModule : list string -> Instantiation.
Variables jsb path : string.
Hypothesis not_favicon : String.eqb path "/favicon.ico" = false.

(** X3.  The status must be the last thing on the trailer line: when the
    base-10 text of the status is followed by any byte that is neither a
    digit nor the separator, such as a space or the carriage return of a
    line that ends with CR LF, the handler reads the status 0, panics in
    [WriteHeader] and writes nothing. *)
Theorem status_followed_by_a_byte_panics
    (logs body rest : string) (c : ascii) (N : Z) :
  InstantiateModule (guestArgs jsb)
  = {| out := logs +:+ line (body +:+ String BAR (Itoa N +:+ String c rest));
       err := None |} ->
  whole_lines logs = true ->
  Strings.ContainsByte body BAR = false ->
  Strings.ContainsByte body LF = false ->
  -9223372036854775808 <= N <= 9223372036854775807 ->
  isDigit c = false ->
  Ascii.eqb c BAR = false ->
  Ascii.eqb c LF = false ->
  Strings.ContainsByte rest LF = false ->
  serve InstantiateModule jsb path
  = Panicked (InvalidWriteHeaderCode 0) NewRecorder.
Proof.
  intros Hrun Hlogs Hbar Hlf HN Hc HcB HcL Hrest.
  set (field := Itoa N +:+ String c rest) in *.
  set (last := body +:+ String BAR field) in *.
  assert (Hfield : Strings.ContainsByte field LF = false).
  { unfold field. rewrite ContainsByte_app.
    rewrite Itoa_no_separator by (right; reflexivity).
    cbn [orb Strings.ContainsByte]. rewrite HcL, Hrest. reflexivity. }
  assert (Hlast : Strings.ContainsByte last LF = false).
  { unfold last. rewrite ContainsByte_app, Hlf.
    cbn [Strings.ContainsByte orb]. exact Hfield. }
  assert (HlastB : Strings.ContainsByte last BAR = true).
  { unfold last. rewrite ContainsByte_app.
    cbn [Strings.ContainsByte]. rewrite Ascii.eqb_refl.
    apply orb_true_r. }
  rewrite (serve_trailer _ _ _ logs last Hrun not_favicon Hlogs Hlast).
  assert (Hstatus : statusField last
                    = Itoa N +:+ String c (fst (fst (Strings.Cut rest BAR)))).
  { pose proof (Split_Cut last BAR HlastB) as Hsplit.
    destruct (Cut_found BAR last HlastB) as (b & a & Hcut & Heq & Hb).
    assert (Hba : b = body /\ a = field).
    { unfold last in Heq.
      assert (Hs : Strings.Split (body +:+ String BAR field) BAR
                   = Strings.Split (b +:+ String BAR a) BAR) by (rewrite <- Heq; reflexivity).
      pose proof (Cut_app_no_sep body (String BAR field) BAR Hbar) as H1.
      pose proof (Cut_app_no_sep b (String BAR a) BAR Hb) as H2.
      cbn [Strings.Cut] in H1, H2. rewrite Ascii.eqb_refl in H1, H2.
      cbn [fst] in H1, H2.
      assert (Hbody : body +:+ EmptyString = b +:+ EmptyString).
      { rewrite <- H1, <- H2. fold last. rewrite <- Heq. reflexivity. }
      assert (Hb' : body = b).
      { clear - Hbody.
        assert (Hnil : forall s : string, s +:+ EmptyString = s).
        { induction s as [|x s IH]; [reflexivity|].
          change (String x s +:+ EmptyString) with (String x (s +:+ EmptyString)).
          rewrite IH. reflexivity. }
        rewrite !Hnil in Hbody. exact Hbody. }
      subst b. split; [reflexivity|].
      apply (String.app_inj body) in Heq. congruence. }
    destruct Hba as [-> ->].
    unfold statusField. rewrite Hsplit, Hcut. cbn [fst snd nth].
    pose proof (Split_hd_Cut field BAR) as Hhd.
    pose proof (Split_not_nil BAR field) as Hne.
    destruct (Strings.Split field BAR) as [|f fs]; [congruence|].
    cbn [hd] in Hhd. rewrite Hhd. unfold field.
    rewrite Cut_app_no_sep by (apply Itoa_no_separator; left; reflexivity).
    cbn [Strings.Cut]. rewrite HcB.
    destruct (Strings.Cut rest BAR) as [[b1 a1] f1]. reflexivity. }
  destruct (respond_with_separator last HlastB) as [_ ->].
  rewrite Hstatus, Atoi_Itoa_suffix by assumption.
  reflexivity.
Qed.

End StatusSuffix.

(** * The flags and the environment map *)

Section EnvFacts.

Import Command.

Context {UUID CompiledModule : Type}.

Lemma Split_length_Count (s : string) (c : ascii) :
  length (Strings.Split s c) = S (Strings.Count s c).
Proof.
  induction s as [|x s IH]; [reflexivity|].
  cbn [Strings.Split Strings.Count].
  destruct (Ascii.eqb x c).
  - cbn [length]. rewrite IH. reflexivity.
  - pose proof (Split_not_nil c s) as Hne.
    destruct (Strings.Split s c); [congruence|].
    cbn [length] in *. lia.
Qed.

Lemma printErrorAndExit_eq {A : Type} (msg : string) (t : list (event UUID CompiledModule)) :
  printErrorAndExit (A := A) msg t = Exited 1 (t ++ errorLines msg)%list.
Proof.
  unfold printErrorAndExit, cbind, Println, record, os_Exit, errorLines.
  rewrite <- !app_assoc. reflexivity.
Qed.

Lemma at_in_range (l : list string) (i : nat) (t : list (event UUID CompiledModule)) :
  (i < length l)%nat ->
  at_ l (Z.of_nat i) t = Done (nth i l EmptyString) t.
Proof.
  intros Hi. unfold at_.
  destruct (Z.ltb_spec (Z.of_nat i) 0); [lia|].
  destruct (Z.leb_spec (Z.of_nat (length l)) (Z.of_nat i)); [lia|].
  cbn [orb]. unfold cret. rewrite Nat2Z.id. reflexivity.
Qed.

Lemma makeEnvMapFrom_step (value : string) (rest : list string)
    (m : gmap string string) (t : list (event UUID CompiledModule)) :
  makeEnvMapFrom (value :: rest) m t
  = match Strings.Split value EQUALS with
    | [key; val] => makeEnvMapFrom rest (<[key := val]> m) t
    | _ => Exited 1 (t ++ errorLines envFormatError)%list
    end.
Proof.
  cbn [makeEnvMapFrom]. unfold cbind at 1.
  destruct (Strings.Split value EQUALS) as [|key [|val [|x parts]]];
    cbn [length Nat.eqb negb]; try apply printErrorAndExit_eq.
  unfold cret.
  unfold cbind at 1. change 0 with (Z.of_nat 0).
  rewrite at_in_range by (simpl; lia).
  unfold cbind at 1. change 1 with (Z.of_nat 1).
  rewrite at_in_range by (simpl; lia). reflexivity.
Qed.

Lemma Split_envEntry (kv : string * string) :
  Strings.ContainsByte (fst kv) EQUALS = false ->
  Strings.ContainsByte (snd kv) EQUALS = false ->
  Strings.Split (envEntry kv) EQUALS = [fst kv; snd kv].
Proof.
  intros Hk Hv. unfold envEntry.
  rewrite Split_app, (Split_no_sep _ _ Hk), (Split_no_sep _ _ Hv).
  reflexivity.
Qed.

Lemma makeEnvMapFrom_entries (kvs : list (string * string)) :
  Forall (fun kv => Strings.ContainsByte (fst kv) EQUALS = false
                    /\ Strings.ContainsByte (snd kv) EQUALS = false) kvs ->
  forall (m : gmap string string) (t : list (event UUID CompiledModule)),
    makeEnvMapFrom (map envEntry kvs) m t
    = Done (fold_left (fun m kv => <[fst kv := snd kv]> m) kvs m) t.
Proof.
  induction 1 as [|kv kvs [Hk Hv] _ IH]; intros m t; [reflexivity|].
  cbn [map fold_left]. rewrite makeEnvMapFrom_step, (Split_envEntry kv Hk Hv).
  apply IH.
Qed.

Lemma makeEnvMap_entries (kvs : list (string * string))
    (t : list (event UUID CompiledModule)) :
  Forall (fun kv => Strings.ContainsByte (fst kv) EQUALS = false
                    /\ Strings.ContainsByte (snd kv) EQUALS = false) kvs ->
  makeEnvMap (map envEntry kvs) t = Done (list_to_map (rev kvs)) t.
Proof.
  intros Hkvs. unfold makeEnvMap.
  rewrite (makeEnvMapFrom_entries kvs Hkvs). f_equal.
  unfold list_to_map. rewrite fold_left_rev_right. reflexivity.
Qed.

(** X4.  For [--env] values of the form [key=value] with no further ["="],
    [makeEnvMap] returns, without writing anything, the map in which each
    key has the value of its last entry: a later [--env] for the same key
    replaces an earlier one. *)
Theorem makeEnvMap_last_entry_wins (kvs : list (string * string))
    (t : list (event UUID CompiledModule)) :
  Forall (fun kv => Strings.ContainsByte (fst kv) EQUALS = false
                    /\ Strings.ContainsByte (snd kv) EQUALS = false) kvs ->
  makeEnvMap (map envEntry kvs) t = Done (list_to_map (rev kvs)) t.
Proof.
  apply makeEnvMap_entries.
Qed.

Lemma makeEnvMapFrom_cases (l : list string) :
  forall (m : gmap string string) (t : list (event UUID CompiledModule)),
    (exists m', makeEnvMapFrom l m t = Done m' t)
    \/ makeEnvMapFrom l m t = Exited 1 (t ++ errorLines envFormatError)%list.
Proof.
  induction l as [|value rest IH]; intros m t.
  - left. exists m. reflexivity.
  - rewrite makeEnvMapFrom_step.
    destruct (Strings.Split value EQUALS) as [|key [|val [|x parts]]]; auto.
Qed.

(** X5.  As soon as one [--env] value does not contain exactly one ["="],
    be it none, or a second one inside the value, [makeEnvMap] ends the
    process with the exit code 1 after printing the format error, whatever
    the other values are. *)
Theorem makeEnvMap_rejects_malformed (l : list string) (t : list (event UUID CompiledModule)) :
  Exists (fun value => Strings.Count value EQUALS <> 1%nat) l ->
  makeEnvMap l t = Exited 1 (t ++ errorLines envFormatError)%list.
Proof.
  intros Hbad. unfold makeEnvMap. generalize (∅ : gmap string string).
  induction Hbad as [value rest Hbad | value rest _ IH]; intros m.
  - rewrite makeEnvMapFrom_step.
    pose proof (Split_length_Count value EQUALS) as Hlen.
    destruct (Strings.Split value EQUALS) as [|key [|val [|x parts]]];
      try reflexivity.
    cbn [length] in Hlen. congruence.
  - rewrite makeEnvMapFrom_step.
    destruct (Strings.Split value EQUALS) as [|key [|val [|x parts]]];
      try reflexivity.
    apply IH.
Qed.

Lemma fold_Set (values : list string) :
  forall l : stringList,
    fold_left (fun l value => fst (Set_ l value)) values l
    = (l ++ values)%list.
Proof.
  induction values as [|v values IH]; intros l; cbn [fold_left].
  - rewrite app_nil_r. reflexivity.
  - rewrite IH. unfold Set_. cbn [fst]. rewrite <- app_assoc. reflexivity.
Qed.

Lemma Split_Join (l : list string) :
  l <> [] ->
  Forall (fun v => Strings.ContainsByte v COLON = false) l ->
  Strings.Split (Strings.Join l (String COLON EmptyString)) COLON = l.
Proof.
  intros Hne Hl. induction Hl as [|v l Hv Hl IH]; [congruence|].
  cbn [Strings.Join]. destruct l as [|v' l].
  - apply Split_no_sep. exact Hv.
  - change (v +:+ String COLON EmptyString
              +:+ Strings.Join (v' :: l) (String COLON EmptyString))
      with (v +:+ String COLON (Strings.Join (v' :: l) (String COLON EmptyString))).
    rewrite Split_app, (Split_no_sep _ _ Hv), IH by discriminate.
    reflexivity.
Qed.

(** X6.  The [--env] flag keeps every value it is given, in the order of
    the command line and with repetitions, and [Set] never fails;
    [String] joins the values with [":"], so that values without a [":"]
    can be read back from it. *)
Theorem stringList_keeps_values (values : list string) (l : stringList)
    (value : string) :
  parsedEnv values = values
  /\ snd (Set_ l value) = None
  /\ (values <> [] ->
      Forall (fun v => Strings.ContainsByte v COLON = false) values ->
      Strings.Split (String_ (parsedEnv values)) COLON = values).
Proof.
  assert (Hp : parsedEnv values = values) by apply (fold_Set values []).
  split; [exact Hp|]. split; [reflexivity|].
  intros Hne Hvals. rewrite Hp. apply Split_Join; assumption.
Qed.

End EnvFacts.

(** * The commands *)

Section CommandFacts.

Import Command.

Context {UUID Object CompiledModule : Type}.
Variable p : Ports UUID Object CompiledModule.
Variable flags : Flags.

Lemma from_in_range (l : list string) (i : nat) (t : list (event UUID CompiledModule)) :
  (i <= length l)%nat ->
  from_ l (Z.of_nat i) t = Done (skipn i l) t.
Proof.
  intros Hi. unfold from_.
  destruct (Z.ltb_spec (Z.of_nat i) 0); [lia|].
  destruct (Z.ltb_spec (Z.of_nat (length l)) (Z.of_nat i)); [lia|].
  cbn [orb]. unfold cret. rewrite Nat2Z.id. reflexivity.
Qed.

Lemma at_0 (a : string) (l : list string) (t : list (event UUID CompiledModule)) :
  at_ (a :: l) 0 t = Done a t.
Proof. apply (at_in_range (a :: l) 0). simpl. lia. Qed.

Lemma at_1 (a b : string) (l : list string) (t : list (event UUID CompiledModule)) :
  at_ (a :: b :: l) 1 t = Done b t.
Proof. apply (at_in_range (a :: b :: l) 1). simpl. lia. Qed.

Lemma at_2 (a b c : string) (l : list string) (t : list (event UUID CompiledModule)) :
  at_ (a :: b :: c :: l) 2 t = Done c t.
Proof. apply (at_in_range (a :: b :: c :: l) 2). simpl. lia. Qed.

Lemma at_3 (a b c d : string) (l : list string) (t : list (event UUID CompiledModule)) :
  at_ (a :: b :: c :: d :: l) 3 t = Done d t.
Proof. apply (at_in_range (a :: b :: c :: d :: l) 3). simpl. lia. Qed.

Lemma from_1 (a : string) (l : list string) (t : list (event UUID CompiledModule)) :
  from_ (a :: l) 1 t = Done l t.
Proof. apply (from_in_range (a :: l) 1). simpl. lia. Qed.

Ltac env_cases :=
  match goal with
  | |- context [makeEnvMap ?l ?t] =>
      let m := fresh "m" in
      let H := fresh "Henv" in
      destruct (makeEnvMapFrom_cases (UUID := UUID) (CompiledModule := CompiledModule) l ∅ t) as [[m H]|H];
      fold (makeEnvMap (UUID := UUID) (CompiledModule := CompiledModule) l) in H;
      rewrite H
  end.

Ltac reduce :=
  cbn [Nat.eqb Nat.ltb Nat.leb length negb app String.eqb Ascii.eqb
       Bool.eqb].

Ltac branch :=
  match goal with
  | |- context [match ?x with _ => _ end] =>
      lazymatch x with
      | negb ?y => destruct y eqn:?
      | context [makeEnvMap] => fail
      | context [at_] => fail
      | context [from_] => fail
      | context [@length] => fail
      | context [match _ with _ => _ end] => fail
      | _ => destruct x eqn:?
      end
  end.

Ltac open_list :=
  match goal with
  | |- context [length ?l] => is_var l; destruct l as [|? ?]
  | |- context [at_ ?l _ _] => is_var l; destruct l as [|? ?]
  | |- context [from_ ?l _ _] => is_var l; destruct l as [|? ?]
  end.

Ltac step :=
  first [ progress reduce
        | rewrite printErrorAndExit_eq
        | progress unfold cbind, handleRollback, handleCreateEndpoint,
            handleListEndpoints, handleDeploy, handleRunEndpoint,
            printIndented, usageIf, orExit, printUsage, Println, record,
            os_Exit, raise, cret
        | rewrite at_0 | rewrite at_1 | rewrite at_2 | rewrite at_3
        | rewrite from_1
        | open_list
        | env_cases
        | branch ].

Ltac explore := unfold main; repeat step.



Ltac settle :=
  simplify_eq;
  repeat match goal with
         | H : ?x = _, H' : ?x = _ |- _ =>
             tryif constr_eq H H' then fail else rewrite H in H'
         end;
  simplify_eq.

Ltac name_commands :=
  repeat match goal with
         | H : String.eqb _ _ = true |- _ => apply String.eqb_eq in H; subst
         end.

(** X10.  When the configuration file does not parse, [main] prints the
    error and exits with the code 1 whatever the arguments are, also for
    [help]: nothing else is written, read or called. *)
Theorem config_error_comes_first (args : list string) (err : string) :
  config_Parse p (configFile flags) = Some err ->
  main p flags args [] = Exited 1 (errorLines err).
Proof.
  intros Hc. unfold main, cbind. rewrite Hc. apply (printErrorAndExit_eq err []).
Qed.

(** X7.  Whatever the arguments and the answers of the ports, [main] and
    the commands it dispatches to never index or slice the arguments out
    of range: the only panic of a run is the one of
    [wasi_snapshot_preview1.MustInstantiate]. *)
Theorem main_never_indexes_out_of_range (args : list string) (f : fault)
    (t : list (event UUID CompiledModule)) :
  main p flags args [] = Faulted f t ->
  exists msg, wasi_MustInstantiate p = Some msg /\ f = MustInstantiateFailed msg.
Proof.
  explore; intros Hf; try discriminate Hf.
  all: injection Hf as <- <-; eexists; split; reflexivity.
Qed.



(** X11.  Every call of the API in a run was validated: a rollback is
    called with the two identifiers that [uuid.Parse] made of the
    arguments of [endpoint rollback]; an endpoint is created only with a
    runtime that [types.ValidRuntime] accepts and with the map
    [makeEnvMap] returned for the [--env] values; a deploy is created
    only with a parsed identifier and the bytes read from the named
    file. *)
Theorem api_calls_are_validated (args : list string) :
  Forall (validated p flags args) (traceOf (main p flags args [])).
Proof.
  explore; cbn [traceOf]; name_commands; unfold errorLines;
    repeat (apply Forall_cons; [cbn [validated]|]); try apply Forall_nil;
    try exact I.
  all: repeat (first [reflexivity | eassumption | econstructor]).
Qed.

(** X12.  A run calls the API at most once. *)
Theorem at_most_one_api_call (args : list string) :
  (length (List.filter apiCall (traceOf (main p flags args []))) <= 1)%nat.
Proof.
  explore; unfold errorLines;
    cbn [traceOf List.filter apiCall length app]; lia.
Qed.

(** X13.  [run file ...]: the module that is compiled and served on port
    3000 is the content of [js.wasm] in the working directory, read
    first; the content of [file] is not compiled but kept as the script
    [jsb] every request hands to the guest; arguments after [file] are
    ignored. *)
Theorem run_serves_js_wasm (f wasm jsb : string) (rest : list string)
    (compiled : CompiledModule) :
  config_Parse p (configFile flags) = None ->
  os_ReadFile p "js.wasm" = inr wasm ->
  os_ReadFile p f = inr jsb ->
  runtime_CompileModule p wasm = inr compiled ->
  wasi_MustInstantiate p = None ->
  main p flags ("run" :: f :: rest) []
  = Done tt [ReadFile "js.wasm"; ReadFile f; CompileModule wasm;
             ListenAndServe ":3000" compiled jsb].
Proof.
  intros Hc Hw Hf Hm Hi. explore; settle; reflexivity.
Qed.

(** X14.  [run file ...] without a readable [js.wasm]: the command prints
    the error and exits with the code 1 before it looks at [file]. *)
Theorem run_needs_js_wasm (f err : string) (rest : list string) :
  config_Parse p (configFile flags) = None ->
  os_ReadFile p "js.wasm" = inl err ->
  main p flags ("run" :: f :: rest) []
  = Exited 1 (ReadFile "js.wasm" :: errorLines err).
Proof.
  intros Hc Hw. explore; settle; reflexivity.
Qed.

(** X15.  [deploy id file] with an [id] that is no UUID: the command exits
    with the code 1 and the message [invalid endpoint id given: id], in
    place of the error of [uuid.Parse], and neither reads [file] nor calls
    the API. *)
Theorem deploy_checks_the_id_first (a f err : string) :
  config_Parse p (configFile flags) = None ->
  uuid_Parse p a = inl err ->
  main p flags ["deploy"; a; f] []
  = Exited 1 (errorLines ("invalid endpoint id given: " +:+ a)).
Proof.
  intros Hc Ha. explore; settle; reflexivity.
Qed.

(** X16.  [endpoint create name] with a valid runtime and [--env] values
    of the form [key=value]: the first thing the command does is to call
    [CreateEndpoint] with that runtime, that name and the environment in
    which each key has the value of its last [--env] on the command
    line. *)
Theorem create_sends_the_last_env_values (name : string)
    (kvs : list (string * string)) :
  config_Parse p (configFile flags) = None ->
  types_ValidRuntime p (runtime flags) = true ->
  env flags = parsedEnv (map envEntry kvs) ->
  Forall (fun kv => Strings.ContainsByte (fst kv) EQUALS = false
                    /\ Strings.ContainsByte (snd kv) EQUALS = false) kvs ->
  exists rest,
    traceOf (main p flags ["endpoint"; "create"; name] [])
    = CreateEndpoint (runtime flags) name (list_to_map (rev kvs)) :: rest.
Proof.
  intros Hc Hv Henv Hkvs.
  assert (Hm : makeEnvMap (UUID := UUID) (CompiledModule := CompiledModule)
                 (env flags) [] = Done (list_to_map (rev kvs)) []).
  { rewrite Henv. unfold parsedEnv. rewrite (fold_Set _ []). cbn [app].
    apply makeEnvMap_entries. exact Hkvs. }
  explore; cbn [traceOf]; settle; eexists; reflexivity.
Qed.

(** After [flagset.Parse], the codes given to [os.Exit] are 0 and 1, and
    the code 1 follows the four lines of [printErrorAndExit]. *)
Lemma main_failure_exit (args : list string) (code : Z)
    (tr : list (event UUID CompiledModule)) :
  main p flags args [] = Exited code tr ->
  code <> 0 ->
  code = 1 /\ exists pre err, tr = (pre ++ errorLines err)%list.
Proof.
  explore; intros Hx Hcode; try discriminate Hx.
  all: injection Hx as <- <-; try (exfalso; apply Hcode; reflexivity).
  all: split; [reflexivity|].
  all: first [ exists []; eexists; reflexivity
             | eexists [_]; eexists; reflexivity
             | eexists [_; _]; eexists; reflexivity
             | eexists [_; _; _]; eexists; reflexivity ].
Qed.



Lemma main_fault_inv (args : list string) (f : fault)
    (t : list (event UUID CompiledModule)) :
  main p flags args [] = Faulted f t ->
  exists msg, wasi_MustInstantiate p = Some msg /\ f = MustInstantiateFailed msg.
Proof.
  explore; intros Hf; try discriminate Hf.
  all: injection Hf as <- <-; eexists; split; reflexivity.
Qed.

(** [flagset.Parse] either returns, having written nothing, or ends in
    [printUsage], after the message of the flag package unless the flag
    was [-h] or [-help]. *)
Lemma Parse_cases (n : nat) :
  forall (arguments : list string), (length arguments <= n)%nat ->
  forall (fl : Flags) (t : list (event UUID CompiledModule)),
    (exists fl' args, Parse fl arguments t = Done (fl', args) t)
    \/ Parse fl arguments t = Exited 0 (t ++ [UsageText])%list
    \/ exists msg, Parse fl arguments t
                   = Exited 0 (t ++ [Stderr msg; UsageText])%list.
Proof.
  assert (Hfail : forall (msg : string) (t : list (event UUID CompiledModule)),
            failf (A := Flags * list string) msg t
            = Exited 0 (t ++ [Stderr (msg +:+ String LF EmptyString);
                              UsageText])%list).
  { intros msg t. unfold failf, cbind, record, printUsage, os_Exit, cbind, record.
    rewrite <- app_assoc. reflexivity. }
  induction n as [|n IH]; intros arguments Hlen fl t.
  - destruct arguments; [|simpl in Hlen; lia]. left. eauto.
  - destruct arguments as [|s rest]; [left; eauto|].
    cbn [length] in Hlen. cbn [Parse].
    destruct s as [|c0 [|c1 s2]]; [left; eauto | left; eauto |].
    destruct (negb (Ascii.eqb c0 "-")); [left; eauto|].
    destruct (Ascii.eqb c1 "-"
              && match s2 with EmptyString => true | _ => false end);
      [left; eauto|].
    destruct (if Ascii.eqb c1 "-" then s2 else String c1 s2) as [|n0 nm];
      [right; right; eexists; apply Hfail|].
    destruct (Ascii.eqb n0 "-" || Ascii.eqb n0 "=");
      [right; right; eexists; apply Hfail|].
    destruct (nameAndValue (String n0 nm)) as [name value].
    destruct (negb (defined name)).
    + destruct (String.eqb name "help" || String.eqb name "h").
      * right. left. reflexivity.
      * right. right. eexists. apply Hfail.
    + destruct value as [v|].
      * apply IH. lia.
      * destruct rest as [|v rest']; [right; right; eexists; apply Hfail|].
        apply IH. cbn [length] in Hlen. lia.
Qed.

End CommandFacts.

(** * The program from its command line *)

Section ProgramFacts.

Import Command.

Context {UUID Object CompiledModule : Type}.
Variable p : Ports UUID Object CompiledModule.

Lemma Parse_outcomes (osArgs : list string) :
  (exists flags args,
      Parse defaultFlags osArgs []
      = Done (flags, args) ([] : list (event UUID CompiledModule))
      /\ forall q : Ports UUID Object CompiledModule,
           mainFromArgs q osArgs [] = main q flags args [])
  \/ (Parse defaultFlags osArgs []
      = Exited 0 ([UsageText] : list (event UUID CompiledModule))
      /\ forall q : Ports UUID Object CompiledModule,
           mainFromArgs q osArgs [] = Exited 0 [UsageText])
  \/ (exists msg,
         Parse defaultFlags osArgs []
         = Exited 0 ([Stderr msg; UsageText] : list (event UUID CompiledModule))
         /\ forall q : Ports UUID Object CompiledModule,
              mainFromArgs q osArgs [] = Exited 0 [Stderr msg; UsageText]).
Proof.
  destruct (Parse_cases (UUID := UUID) (CompiledModule := CompiledModule)
              (length osArgs) osArgs (le_n _) defaultFlags [])
    as [(fl & args & HP)|[HP|(msg & HP)]]; cbn [app] in HP.
  - left. exists fl, args. split; [exact HP|].
    intros q. unfold mainFromArgs, cbind. rewrite HP. reflexivity.
  - right. left. split; [exact HP|].
    intros q. unfold mainFromArgs, cbind. rewrite HP. reflexivity.
  - right. right. exists msg. split; [exact HP|].
    intros q. unfold mainFromArgs, cbind. rewrite HP. reflexivity.
Qed.



(** X17.  The exit status of the program is 0, 1 or 2.  A run with the
    status 1 has printed, as the last thing it did, the four lines of
    [printErrorAndExit]: an empty line, [Error:], the message and an
    empty line.  A run with the status 2 is the panic of
    [wasi_snapshot_preview1.MustInstantiate] in the command [run]; in
    particular an error in the flags does not give the status 2 of
    [flag.ExitOnError], for [printUsage] has exited with 0 before. *)
Theorem exit_status_of_main (osArgs : list string) :
  (exitStatus (mainFromArgs p osArgs []) = 0
   \/ exitStatus (mainFromArgs p osArgs []) = 1
   \/ exitStatus (mainFromArgs p osArgs []) = 2)
  /\ (exitStatus (mainFromArgs p osArgs []) = 1 ->
      exists pre err,
        traceOf (mainFromArgs p osArgs []) = (pre ++ errorLines err)%list)
  /\ (exitStatus (mainFromArgs p osArgs []) = 2 ->
      exists msg t,
        mainFromArgs p osArgs [] = Faulted (MustInstantiateFailed msg) t
        /\ wasi_MustInstantiate p = Some msg).
Proof.
  destruct (Parse_outcomes osArgs)
    as [(fl & args & HP & Hm)|[[HP Hm]|(msg & HP & Hm)]];
    rewrite (Hm p); cbn [exitStatus traceOf].
  - destruct (main p fl args []) as [a t|code t|f t] eqn:Hmain;
      cbn [exitStatus traceOf].
    + split; [left; reflexivity|]. split; intros Hx; discriminate Hx.
    + destruct (Z.eq_dec code 0) as [->|Hcode].
      * split; [left; reflexivity|]. split; intros Hx; discriminate Hx.
      * destruct (main_failure_exit p fl args code t Hmain Hcode)
          as [-> Hlines].
        split; [right; left; reflexivity|].
        split; [intros _; exact Hlines | intros Hx; discriminate Hx].
    + destruct (main_fault_inv p fl args f t Hmain) as (msg & Hwasi & ->).
      split; [right; right; reflexivity|].
      split; [intros Hx; discriminate Hx|].
      intros _. exists msg, t. split; [reflexivity | exact Hwasi].
  - split; [left; reflexivity|]. split; intros Hx; discriminate Hx.
  - split; [left; reflexivity|]. split; intros Hx; discriminate Hx.
Qed.

End ProgramFacts.


(** * The further theorems at concrete inputs *)

Section MoreScenarios.

Import Httptest Main Command.

(** A guest that logs a line and asks for 204: the status is sent, the
    body [ok] is not. *)
Lemma handler_answers_iff_witness :
  serveHTTP (exits (line "starting" +:+ line "ok|204")) EmptyString "GET" "/"
  = Returned tt (Http.mkResponse "GET" 204 true [] EmptyString).
Proof.
  apply (handler_answers_iff
           (exits (line "starting" +:+ line "ok|204")) EmptyString "/" eq_refl
           "GET" (line "starting" +:+ line "ok|204")
           (Http.mkResponse "GET" 204 true [] EmptyString) eq_refl).
  split; [vm_compute; lia|]. split; [reflexivity|].
  split; [vm_compute; split; discriminate | reflexivity].
Defined.

Lemma decoded_body_has_no_separator_witness :
  Strings.ContainsByte (Body (response 201 "ok")) LF = false
  /\ Strings.ContainsByte (Body (response 201 "ok")) BAR = false
  /\ 100 <= Code (response 201 "ok") <= 999
  /\ wroteHeader (response 201 "ok") = true.
Proof.
  apply (decoded_body_has_no_separator
           (exits (line "starting" +:+ line "ok|201")) EmptyString "/" eq_refl
           (line "starting" +:+ line "ok|201") (response 201 "ok")
           eq_refl eq_refl).
Defined.

(** A guest that ends its trailer with CR LF. *)
Lemma status_followed_by_a_byte_panics_witness :
  serve (exits ("hello|200" +:+ String CR (String LF EmptyString)))
    EmptyString "/"
  = Panicked (InvalidWriteHeaderCode 0) NewRecorder.
Proof.
  apply (status_followed_by_a_byte_panics
           (exits ("hello|200" +:+ String CR (String LF EmptyString)))
           EmptyString "/" eq_refl
           EmptyString "hello" EmptyString CR 200);
    [reflexivity | reflexivity | reflexivity | reflexivity | lia
    | reflexivity | reflexivity | reflexivity | reflexivity].
Defined.

Lemma makeEnvMap_last_entry_wins_witness :
  makeEnvMap (UUID := string) (CompiledModule := string)
    ["A=1"; "B=2"; "A=3"] []
  = Done (list_to_map [("A", "3"); ("B", "2"); ("A", "1")]) [].
Proof.
  apply (makeEnvMap_last_entry_wins (UUID := string) (CompiledModule := string)
           [("A", "1"); ("B", "2"); ("A", "3")] []).
  repeat constructor.
Defined.

(** A value that itself contains ["="]. *)
Lemma makeEnvMap_rejects_malformed_witness :
  makeEnvMap (UUID := string) (CompiledModule := string)
    ["A=1"; "TOKEN=abc=="] []
  = Exited 1 (errorLines envFormatError).
Proof.
  apply (makeEnvMap_rejects_malformed (UUID := string) (CompiledModule := string)
           ["A=1"; "TOKEN=abc=="] []).
  apply Exists_cons_tl. apply Exists_cons_hd. vm_compute. lia.
Defined.

Lemma stringList_keeps_values_witness :
  Strings.Split (String_ (parsedEnv ["A=1"; "B=2"])) COLON = ["A=1"; "B=2"].
Proof.
  apply (proj2 (proj2 (stringList_keeps_values ["A=1"; "B=2"] [] EmptyString)));
    [discriminate | repeat constructor].
Defined.

Lemma main_never_indexes_out_of_range_witness :
  exists msg,
    wasi_MustInstantiate (examplePorts None (Some "wasi failed") [])
    = Some msg
    /\ MustInstantiateFailed "wasi failed" = MustInstantiateFailed msg.
Proof.
  apply (main_never_indexes_out_of_range
           (examplePorts None (Some "wasi failed") []) (exampleFlags [])
           ["run"; "app.js"] (MustInstantiateFailed "wasi failed")
           [ReadFile "js.wasm"; ReadFile "app.js";
            CompileModule "contents of js.wasm"]).
  reflexivity.
Defined.



Lemma config_error_comes_first_witness :
  main (examplePorts (Some "open config.toml: no such file") None [])
    (exampleFlags []) ["help"] []
  = Exited 1 (errorLines "open config.toml: no such file").
Proof.
  apply (config_error_comes_first
           (examplePorts (Some "open config.toml: no such file") None [])
           (exampleFlags []) ["help"] "open config.toml: no such file").
  reflexivity.
Defined.

Lemma run_serves_js_wasm_witness :
  main (examplePorts None None []) (exampleFlags [])
    ["run"; "app.js"; "ignored"] []
  = Done tt [ReadFile "js.wasm"; ReadFile "app.js";
             CompileModule "contents of js.wasm";
             ListenAndServe ":3000" "compiled contents of js.wasm"
               "contents of app.js"].
Proof.
  apply (run_serves_js_wasm
           (examplePorts None None []) (exampleFlags [])
           "app.js" "contents of js.wasm" "contents of app.js" ["ignored"]
           "compiled contents of js.wasm");
    reflexivity.
Defined.

Lemma run_needs_js_wasm_witness :
  main (examplePorts None None ["js.wasm"]) (exampleFlags [])
    ["run"; "app.js"] []
  = Exited 1 (ReadFile "js.wasm"
              :: errorLines "open js.wasm: no such file or directory").
Proof.
  apply (run_needs_js_wasm
           (examplePorts None None ["js.wasm"]) (exampleFlags [])
           "app.js" "open js.wasm: no such file or directory" []);
    reflexivity.
Defined.

Lemma deploy_checks_the_id_first_witness :
  main (examplePorts None None ["app.wasm"]) (exampleFlags [])
    ["deploy"; "not-a-uuid"; "app.wasm"] []
  = Exited 1 (errorLines "invalid endpoint id given: not-a-uuid").
Proof.
  apply (deploy_checks_the_id_first
           (examplePorts None None ["app.wasm"]) (exampleFlags [])
           "not-a-uuid" "app.wasm" "invalid UUID length: 10");
    reflexivity.
Defined.

Lemma create_sends_the_last_env_values_witness :
  exists rest,
    traceOf (main (examplePorts None None [])
               (exampleFlags ["A=1"; "B=2"; "A=3"])
               ["endpoint"; "create"; "hello"] [])
    = CreateEndpoint "go" "hello"
        (list_to_map [("A", "3"); ("B", "2"); ("A", "1")]) :: rest.
Proof.
  apply (create_sends_the_last_env_values
           (examplePorts None None []) (exampleFlags ["A=1"; "B=2"; "A=3"])
           "hello" [("A", "1"); ("B", "2"); ("A", "3")]);
    [reflexivity | reflexivity | reflexivity | repeat constructor].
Defined.

(** [run] when the WASI host module cannot be instantiated. *)
Lemma exit_status_of_main_witness :
  exitStatus (mainFromArgs (examplePorts None (Some "wasi failed") [])
                ["run"; "app.js"] []) = 2
  /\ exists msg t,
       mainFromArgs (examplePorts None (Some "wasi failed") [])
         ["run"; "app.js"] []
       = Faulted (MustInstantiateFailed msg) t
       /\ wasi_MustInstantiate (examplePorts None (Some "wasi failed") [])
          = Some msg.
Proof.
  split; [reflexivity|].
  apply (proj2 (proj2 (exit_status_of_main
                         (examplePorts None (Some "wasi failed") [])
                         ["run"; "app.js"]))).
  reflexivity.
Defined.

End MoreScenarios.
